(** * pyvsgen: the suite builder and its write phases

    A shallow embedding of [pyvsgen/suite.py] (class [PyvsgenSuite]):
    the constructor [__init__], the four resolvers [_getsolution],
    [_getproject], [_getinterpreter], [_getvirtualenvironment] and the
    orchestration method [write].

    Python exceptions are values of [error]; the resolvers run in a small
    state-and-error monad whose state holds the object allocator (every
    constructor call yields a fresh object identity) and a trace of the
    resolver calls and constructions performed so far. *)

From Stdlib Require Import String Ascii List Bool Arith ZArith Lia.
From Stdlib Require Import Permutation Sorted.
From Stdlib Require Import Uint63 Floats.
Import ListNotations.
Open Scope string_scope.
Open Scope list_scope.


(** ** Exceptions *)

Inductive error : Type :=
| ValueError (msg : string)
| NoSectionError (section : string)
| NoOptionError (opt section : string).

Inductive result (A : Type) : Type :=
| Ok (a : A)
| Err (e : error).

Arguments Ok {A} a.
Arguments Err {A} e.

(** ** Observable events and the interpreter state *)

Inductive kind : Type := KSolution | KProject | KInterpreter | KVirtualEnv.

Inductive event : Type :=
| Resolve (k : kind) (section : string)   (* a resolver is entered *)
| Construct (k : kind) (oid : nat).       (* a constructor returns object [oid] *)

Record state : Type := mkState {
  next_id : nat;
  trace : list event        (* most recent event first *)
}.

Definition state0 : state := mkState 0 [].

(** ** The monad: state is kept when an exception is raised *)

Definition M (A : Type) : Type := state -> result A * state.

Definition ret {A} (a : A) : M A := fun st => (Ok a, st).

Definition raise {A} (e : error) : M A := fun st => (Err e, st).

Definition bind {A B} (m : M A) (k : A -> M B) : M B :=
  fun st =>
    match m st with
    | (Ok a, st') => k a st'
    | (Err e, st') => (Err e, st')
    end.

Notation "x <- m ;; k" := (bind m (fun x => k))
  (at level 61, m at next level, right associativity).
Notation "m ;;; k" := (bind m (fun _ => k))
  (at level 61, right associativity).

Definition lift {A} (r : result A) : M A := fun st => (r, st).

Definition log (e : event) : M unit :=
  fun st => (Ok tt, mkState (next_id st) (e :: trace st)).

(** A constructor call: takes the next object identity and records it. *)
Definition new_object (k : kind) : M nat :=
  fun st => (Ok (next_id st),
             mkState (S (next_id st)) (Construct k (next_id st) :: trace st)).

(** A list comprehension / for loop whose body may raise. *)
Fixpoint mapM {A B} (f : A -> M B) (l : list A) : M (list B) :=
  match l with
  | [] => ret []
  | a :: l' => b <- f a ;; bs <- mapM f l' ;; ret (b :: bs)
  end.

(** ** Strings *)

Fixpoint contains (needle hay : string) : bool :=
  String.prefix needle hay
  || match hay with
     | EmptyString => false
     | String _ hay' => contains needle hay'
     end.

Definition is_space (c : ascii) : bool :=
  let n := nat_of_ascii c in
  Nat.eqb n 32 || (Nat.leb 9 n && Nat.leb n 13).

Fixpoint lstrip (s : string) : string :=
  match s with
  | String c s' => if is_space c then lstrip s' else s
  | EmptyString => EmptyString
  end.

Fixpoint rstrip (s : string) : string :=
  match s with
  | String c s' =>
      match rstrip s' with
      | EmptyString => if is_space c then EmptyString else String c EmptyString
      | r => String c r
      end
  | EmptyString => EmptyString
  end.

Definition strip (s : string) : string := rstrip (lstrip s).

Fixpoint split_on (d : ascii) (s : string) : list string :=
  match s with
  | EmptyString => [EmptyString]
  | String c s' =>
      if Ascii.eqb c d then EmptyString :: split_on d s'
      else match split_on d s' with
           | w :: ws => String c w :: ws
           | [] => [String c EmptyString]
           end
  end.

Definition lower_ascii (c : ascii) : ascii :=
  let n := nat_of_ascii c in
  if Nat.leb 65 n && Nat.leb n 90 then ascii_of_nat (n + 32) else c.

Fixpoint lower (s : string) : string :=
  match s with
  | EmptyString => EmptyString
  | String c s' => String (lower_ascii c) (lower s')
  end.

(** [', '.join(l)] *)
Definition join_comma (l : list string) : string := String.concat ", " l.

(** ** The configuration store ([configparser.ConfigParser])

    Sections are kept in file order; option names are stored lower-cased,
    as the parser does.  The parser's interpolation is outside the model:
    the values of the store hold no interpolation syntax, so a lookup returns
    the stored string and a stored string is accepted as it is. *)

Definition options : Type := list (string * string).

Record ConfigParser : Type := mkConfig {
  defaults : options;
  sects : list (string * options)
}.

Definition default_section : string := "DEFAULT".

Fixpoint assoc {V} (k : string) (l : list (string * V)) : option V :=
  match l with
  | [] => None
  | (k', v) :: l' => if String.eqb k k' then Some v else assoc k l'
  end.

Fixpoint assoc_set {V} (k : string) (v : V) (l : list (string * V))
  : list (string * V) :=
  match l with
  | [] => [(k, v)]
  | (k', v') :: l' =>
      if String.eqb k k' then (k', v) :: l' else (k', v') :: assoc_set k v l'
  end.

(** [config.sections()] *)
Definition sections (cfg : ConfigParser) : list string := map fst (sects cfg).

Definition has_section (cfg : ConfigParser) (s : string) : bool :=
  existsb (String.eqb s) (sections cfg).

(** [section in config] *)
Definition in_config (s : string) (cfg : ConfigParser) : bool :=
  String.eqb s default_section || has_section cfg s.

(** [config.get(section, option)] with no fallback. *)
Definition get (cfg : ConfigParser) (section opt : string) : result string :=
  let sectiondict :=
    if String.eqb section default_section then Some []
    else assoc section (sects cfg) in
  match sectiondict with
  | None => Err (NoSectionError section)
  | Some d =>
      match assoc opt (d ++ defaults cfg) with
      | Some v => Ok v
      | None => Err (NoOptionError opt section)
      end
  end.

(** [config.get(section, option, fallback=fb)]: a missing section or option
    gives the fallback. *)
Definition get_fb {A} (cfg : ConfigParser) (section opt : string)
  (conv : string -> A) (fb : A) : A :=
  match get cfg section opt with
  | Ok v => conv v
  | Err _ => fb
  end.

(** [config.set(section, option, value)], for a value without interpolation
    syntax (the parser refuses other values when they are stored). *)
Definition set (cfg : ConfigParser) (section opt value : string)
  : result ConfigParser :=
  if String.eqb section default_section
  then Ok (mkConfig (assoc_set opt value (defaults cfg)) (sects cfg))
  else match assoc section (sects cfg) with
       | None => Err (NoSectionError section)
       | Some d =>
           Ok (mkConfig (defaults cfg)
                 (assoc_set section (assoc_set opt value d) (sects cfg)))
       end.

(** [config.getboolean(section, option, fallback=fb)] *)
Definition boolean_state (v : string) : option bool :=
  let l := lower v in
  if existsb (String.eqb l) ["1"; "yes"; "true"; "on"] then Some true
  else if existsb (String.eqb l) ["0"; "no"; "false"; "off"] then Some false
  else None.

Definition getboolean (cfg : ConfigParser) (section opt : string) (fb : bool)
  : result bool :=
  match get cfg section opt with
  | Ok v => match boolean_state v with
            | Some b => Ok b
            | None => Err (ValueError ("Not a boolean: " ++ v))
            end
  | Err _ => Ok fb
  end.

(** ** The entity model

    Every object carries its identity ([*_id], the value of Python's [id]);
    two constructor calls never return the same identity. *)

Record Interpreter : Type := mkInterpreter {
  i_id : nat;
  i_Path : string;
  i_Description : string;
  i_VSVersion : option float;
  i_IsVirtualEnvironment : bool
}.

Record Project : Type := mkProject {
  p_id : nat;
  p_VSVersion : option float;
  p_Name : string;
  p_FileName : string;
  p_SearchPath : list string;
  p_OutputPath : string;
  p_WorkingDirectory : string;
  p_RootNamespace : string;
  p_ProjectHome : string;
  p_StartupFile : string;
  p_CompileFiles : list string;
  p_ContentFiles : list string;
  p_CompileInFilter : list string;
  p_CompileExFilter : list string;
  p_ContentInFilter : list string;
  p_ContentExFilter : list string;
  p_DirectoryInFilter : list string;
  p_DirectoryExFilter : list string;
  p_IsWindowsApplication : bool;
  p_PythonInterpreterArgs : list string;
  p_PythonInterpreters : list Interpreter;
  p_PythonInterpreter : option Interpreter;
  p_VirtualEnvironments : list Interpreter
}.

Record Solution : Type := mkSolution {
  s_id : nat;
  s_Name : string;
  s_FileName : string;
  s_VSVersion : option float;
  s_Projects : list Project
}.

(** The keyword arguments the module passes on: only [VSVersion]. *)
Record kwargs : Type := mkKwargs { kw_VSVersion : option float }.

Definition no_kwargs : kwargs := mkKwargs None.

(** ** What the module imports

    [suite.py] uses [os.path], the entity classes, the configuration parser's
    list and path getters and Python's [set]; none of them is defined in the
    module.  Their behaviour enters the model through this interface. *)

Class Env : Type := mkEnv {
  (* os.path *)
  normpath : string -> string;
  path_join : string -> string -> string;
  dirname : string -> string;
  (* float(value); None when the conversion raises ValueError *)
  float_of_string : string -> option float;
  (* the delimiter of the parser's list values *)
  list_delimiter : ascii;
  (* what the parser's getlist gives for a missing option when its caller
     passes no fallback: None when it raises as get does, Some l when the
     getter has a fallback l of its own *)
  getlist_unset : option (list string);
  (* attribute values of a fresh PyvsgenSolution(): Name, FileName, VSVersion *)
  solution_Name0 : string;
  solution_FileName0 : string;
  solution_VSVersion0 : option float;
  (* attribute values of a fresh PyvsgenProject() *)
  project0 : Project;
  (* the Description a fresh PyvsgenInterpreter gets from its path *)
  installation_description : string -> string;
  environment_description : string -> string;
  (* the files insert_files finds under a root path: compile, content *)
  discover : string -> Project -> list string * list string;
  (* __eq__ (with a consistent __hash__) of the entity classes *)
  project_eq : Project -> Project -> bool;
  interpreter_eq : Interpreter -> Interpreter -> bool;
  (* the order in which a set holding the given distinct elements, inserted
     in the given order, is iterated *)
  project_set_order : list Project -> list Project;
  interpreter_set_order : list Interpreter -> list Interpreter;
  project_set_order_perm : forall l, Permutation (project_set_order l) l;
  interpreter_set_order_perm : forall l, Permutation (interpreter_set_order l) l
}.

(** [bool(x)] for a float: false exactly for zero. *)
Definition float_truth (x : float) : bool := negb (PrimFloat.eqb x 0%float).

(** [not v] for a value that is [None] or a float. *)
Definition py_not (v : option float) : bool :=
  match v with
  | None => true
  | Some x => negb (float_truth x)
  end.

Section Suite.

Context {E : Env}.

(** [config.getfloat(section, option, fallback=fb)]: the fallback is used for
    a missing section or option; a value that does not convert raises. *)
Definition getfloat (cfg : ConfigParser) (section opt : string)
  (fb : option float) : result (option float) :=
  match get cfg section opt with
  | Ok v => match float_of_string v with
            | Some x => Ok (Some x)
            | None => Err (ValueError ("could not convert string to float: " ++ v))
            end
  | Err _ => Ok fb
  end.

(** Modelled from the spec: [PyvsgenConfigParser.getlist] is not in the
    module.  It "splits a delimited raw value into an ordered sequence of
    trimmed strings; empty string yields empty sequence". *)
Definition convert_to_list (v : string) : list string :=
  match v with
  | EmptyString => []
  | _ => map strip (split_on list_delimiter v)
  end.

(** Modelled from the spec: the getters "return a typed value with a
    caller-supplied fallback if absent".  What [getlist] does for a missing
    option when its caller supplies no fallback is not said there; it is the
    parameter [getlist_unset]. *)
Definition getlist (cfg : ConfigParser) (section opt : string)
  (fallback : option (list string)) : result (list string) :=
  match get cfg section opt, fallback with
  | Ok v, _ => Ok (convert_to_list v)
  | Err _, Some fb => Ok fb
  | Err e, None =>
      match getlist_unset with
      | Some fb => Ok fb
      | None => Err e
      end
  end.

Definition getlist_fb (cfg : ConfigParser) (section opt : string)
  (fb : list string) : list string :=
  get_fb cfg section opt convert_to_list fb.

(** Modelled from the spec: [getdir], [getdirs] and [getfile] are not in the
    module.  They are "like getString/getList but additionally normalize each
    value into an absolute path relative to a configured root", the root
    being the store's [pyvsgen]/[root]. *)
Definition configured_root (cfg : ConfigParser) : string :=
  get_fb cfg "pyvsgen" "root" (fun v => v) "".

Definition convert_to_path (cfg : ConfigParser) (v : string) : string :=
  normpath (path_join (configured_root cfg) v).

Definition getdir (cfg : ConfigParser) (section opt : string) (fb : string)
  : string :=
  get_fb cfg section opt (convert_to_path cfg) fb.

Definition getfile (cfg : ConfigParser) (section opt : string) (fb : string)
  : string :=
  get_fb cfg section opt (convert_to_path cfg) fb.

Definition getdirs (cfg : ConfigParser) (section opt : string)
  (fb : list string) : list string :=
  get_fb cfg section opt
    (fun v => map (convert_to_path cfg) (convert_to_list v)) fb.

(** ** Constructors *)

Definition kw_or (kw : kwargs) (d : option float) : option float :=
  match kw_VSVersion kw with
  | Some v => Some v
  | None => d
  end.

(** Modelled from the spec: [PyvsgenSolution] (called with keyword arguments) is not in the module;
    a fresh Solution has no Projects and takes [VSVersion] from the keyword
    arguments. *)
Definition PyvsgenSolution (kw : kwargs) : M Solution :=
  oid <- new_object KSolution ;;
  ret (mkSolution oid solution_Name0 solution_FileName0
         (kw_or kw solution_VSVersion0) []).

Definition with_identity (oid : nat) (vs : option float) (p : Project) : Project :=
  mkProject oid vs (p_Name p) (p_FileName p) (p_SearchPath p) (p_OutputPath p)
    (p_WorkingDirectory p) (p_RootNamespace p) (p_ProjectHome p)
    (p_StartupFile p) (p_CompileFiles p) (p_ContentFiles p)
    (p_CompileInFilter p) (p_CompileExFilter p) (p_ContentInFilter p)
    (p_ContentExFilter p) (p_DirectoryInFilter p) (p_DirectoryExFilter p)
    (p_IsWindowsApplication p) (p_PythonInterpreterArgs p)
    (p_PythonInterpreters p) (p_PythonInterpreter p) (p_VirtualEnvironments p).

(** Modelled from the spec: [PyvsgenProject] (called with keyword arguments) is not in the module. *)
Definition PyvsgenProject (kw : kwargs) : M Project :=
  oid <- new_object KProject ;;
  ret (with_identity oid (kw_or kw (p_VSVersion project0)) project0).

(** Modelled from the spec: [PyvsgenInterpreter.from_python_installation] is
    not in the module; an Interpreter is identified by its installation path
    and keeps the VSVersion it was resolved under. *)
Definition from_python_installation (path : string) (kw : kwargs) : M Interpreter :=
  oid <- new_object KInterpreter ;;
  ret (mkInterpreter oid path (installation_description path)
         (kw_VSVersion kw) false).

(** Modelled from the spec: [PyvsgenInterpreter.from_virtual_environment] is
    not in the module. *)
Definition from_virtual_environment (path : string) (kw : kwargs) : M Interpreter :=
  oid <- new_object KVirtualEnv ;;
  ret (mkInterpreter oid path (environment_description path)
         (kw_VSVersion kw) true).

Definition set_Description (d : string) (i : Interpreter) : Interpreter :=
  mkInterpreter (i_id i) (i_Path i) d (i_VSVersion i) (i_IsVirtualEnvironment i).

(** Modelled from the spec: [PyvsgenProject.insert_files] is not in the
    module; file discovery appends what it finds to CompileFiles and
    ContentFiles. *)
Definition insert_files (root_path : string) (p : Project) : Project :=
  let found := discover root_path p in
  mkProject (p_id p) (p_VSVersion p) (p_Name p) (p_FileName p) (p_SearchPath p)
    (p_OutputPath p) (p_WorkingDirectory p) (p_RootNamespace p)
    (p_ProjectHome p) (p_StartupFile p)
    (p_CompileFiles p ++ fst found) (p_ContentFiles p ++ snd found)
    (p_CompileInFilter p) (p_CompileExFilter p) (p_ContentInFilter p)
    (p_ContentExFilter p) (p_DirectoryInFilter p) (p_DirectoryExFilter p)
    (p_IsWindowsApplication p) (p_PythonInterpreterArgs p)
    (p_PythonInterpreters p) (p_PythonInterpreter p) (p_VirtualEnvironments p).

(** ** Python containers used by the module *)

(** A dict with string keys, in insertion order; storing under a key that is
    already present replaces the value and keeps the key's position. *)
Definition dict (V : Type) : Type := list (string * V).

Definition dict_values {V} (d : dict V) : list V := map snd d.

(** [{n: f(n) for n in keys}], started from [d]. *)
Fixpoint dict_comprehension {V} (f : string -> M V) (keys : list string)
  (d : dict V) : M (dict V) :=
  match keys with
  | [] => ret d
  | n :: keys' => v <- f n ;; dict_comprehension f keys' (assoc_set n v d)
  end.

(** ** The resolvers *)

Definition section_not_found (cfg : ConfigParser) (section : string) : error :=
  ValueError ("Section [" ++ section ++ "] not found in ["
              ++ join_comma (sections cfg) ++ "]").

Definition vsversion_required (section : string) : error :=
  ValueError ("Solution section [" ++ section
              ++ "] requires a value for Visual Studio Version (visual_studio_version)").

Definition _getinterpreter (cfg : ConfigParser) (section : string) (kw : kwargs)
  : M (list Interpreter) :=
  log (Resolve KInterpreter section) ;;;
  if negb (in_config section cfg) then raise (section_not_found cfg section)
  else
    let interpreter_paths := getdirs cfg section "interpreter_paths" [] in
    interpreters <-
      match interpreter_paths with
      | [] => ret []
      | _ => mapM (fun p => from_python_installation p kw) interpreter_paths
      end ;;
    ret (map (fun i =>
                set_Description
                  (get_fb cfg section "description" (fun v => v) (i_Description i)) i)
           interpreters).

Definition _getvirtualenvironment (cfg : ConfigParser) (section : string)
  (kw : kwargs) : M (list Interpreter) :=
  log (Resolve KVirtualEnv section) ;;;
  if negb (in_config section cfg) then raise (section_not_found cfg section)
  else
    let environment_paths := getdirs cfg section "environment_paths" [] in
    environments <-
      match environment_paths with
      | [] => ret []
      | _ => mapM (fun p => from_virtual_environment p kw) environment_paths
      end ;;
    ret (map (fun e =>
                set_Description
                  (get_fb cfg section "description" (fun v => v) (i_Description e)) e)
           environments).

(** [next((i for i in interpreters.get(interpreter, [])), None)] *)
Definition select_interpreter (interpreters : dict (list Interpreter))
  (interpreter : option string) : option Interpreter :=
  let found :=
    match interpreter with
    | Some n => match assoc n interpreters with
                | Some l => l
                | None => []
                end
    | None => []
    end in
  match found with
  | i :: _ => Some i
  | [] => None
  end.

(** The mapping built at line 103: section name to the interpreters
    resolved for it. *)
Definition interpreter_mapping (cfg : ConfigParser) (names : list string)
  (kw : kwargs) : M (dict (list Interpreter)) :=
  dict_comprehension (fun n => _getinterpreter cfg n kw) names [].

Definition _getproject (cfg : ConfigParser) (section : string) (kw : kwargs)
  : M Project :=
  log (Resolve KProject section) ;;;
  if negb (in_config section cfg) then raise (section_not_found cfg section)
  else
    p <- PyvsgenProject kw ;;
    let Name := get_fb cfg section "name" (fun v => v) (p_Name p) in
    let FileName := getfile cfg section "filename" (p_FileName p) in
    let SearchPath := getdirs cfg section "search_path" (p_SearchPath p) in
    let OutputPath := getdir cfg section "output_path" (p_OutputPath p) in
    let WorkingDirectory :=
      getdir cfg section "working_directory" (p_WorkingDirectory p) in
    let RootNamespace :=
      get_fb cfg section "root_namespace" (fun v => v) (p_RootNamespace p) in
    let ProjectHome := getdir cfg section "project_home" (p_ProjectHome p) in
    let StartupFile := getfile cfg section "startup_file" (p_StartupFile p) in
    let CompileFiles := getlist_fb cfg section "compile_files" (p_CompileFiles p) in
    let ContentFiles := getlist_fb cfg section "content_files" (p_ContentFiles p) in
    let CompileInFilter :=
      getlist_fb cfg section "compile_in_filter" (p_CompileInFilter p) in
    let CompileExFilter :=
      getlist_fb cfg section "compile_ex_filter" (p_CompileExFilter p) in
    let ContentInFilter :=
      getlist_fb cfg section "content_in_filter" (p_ContentInFilter p) in
    let ContentExFilter :=
      getlist_fb cfg section "content_ex_filter" (p_ContentExFilter p) in
    let DirectoryInFilter :=
      getdirs cfg section "directory_in_filter" (p_DirectoryInFilter p) in
    let DirectoryExFilter :=
      getdirs cfg section "directory_ex_filter" (p_DirectoryExFilter p) in
    IsWindowsApplication <-
      lift (getboolean cfg section "is_windows_application"
              (p_IsWindowsApplication p)) ;;
    let PythonInterpreterArgs :=
      getlist_fb cfg section "python_interpreter_args" (p_PythonInterpreterArgs p) in
    let interpreter :=
      get_fb cfg section "python_interpreter" (fun v => Some v) None in
    names <- lift (getlist cfg section "python_interpreters" None) ;;
    interpreters <- interpreter_mapping cfg names (mkKwargs (p_VSVersion p)) ;;
    let PythonInterpreters := concat (dict_values interpreters) in
    let PythonInterpreter := select_interpreter interpreters interpreter in
    let virtual_environments :=
      getlist_fb cfg section "python_virtual_environments" [] in
    ves <- mapM (fun n => _getvirtualenvironment cfg n (mkKwargs (p_VSVersion p)))
             virtual_environments ;;
    let VirtualEnvironments := concat ves in
    let root_path := get_fb cfg section "root_path" (fun v => v) "" in
    ret (insert_files root_path
           (mkProject (p_id p) (p_VSVersion p) Name FileName SearchPath
              OutputPath WorkingDirectory RootNamespace ProjectHome StartupFile
              CompileFiles ContentFiles CompileInFilter CompileExFilter
              ContentInFilter ContentExFilter DirectoryInFilter
              DirectoryExFilter IsWindowsApplication PythonInterpreterArgs
              PythonInterpreters PythonInterpreter VirtualEnvironments)).

Definition _getsolution (cfg : ConfigParser) (section : string) (kw : kwargs)
  : M Solution :=
  log (Resolve KSolution section) ;;;
  if negb (in_config section cfg) then raise (section_not_found cfg section)
  else
    s <- PyvsgenSolution kw ;;
    let Name := get_fb cfg section "name" (fun v => v) (s_Name s) in
    let FileName :=
      normpath (get_fb cfg section "filename" (fun v => v) (s_FileName s)) in
    VSVersion <-
      lift (getfloat cfg section "visual_studio_version" (s_VSVersion s)) ;;
    if py_not VSVersion then raise (vsversion_required section)
    else
      let project_sections := getlist_fb cfg section "projects" [] in
      projects <-
        mapM (fun project_section =>
                _getproject cfg project_section (mkKwargs VSVersion))
          project_sections ;;
      ret (mkSolution (s_id s) Name FileName VSVersion (s_Projects s ++ projects)).

(** ** The suite *)

Record PyvsgenSuite : Type := mkSuite { _solutions : list Solution }.

Definition dq : string := String "034"%char EmptyString.

Definition unreadable (filename : string) : error :=
  ValueError ("Could not read Pyvsgen configuration file " ++ filename ++ ".").

Definition root_expected : error :=
  ValueError ("Expected option " ++ dq ++ "root" ++ dq ++ " in section [pyvsgen].").

(** The root stored back into the configuration. *)
Definition resolved_root (filename root : string) : string :=
  normpath (path_join (dirname filename) root).

(** The sections the constructor resolves into Solutions. *)
Definition solution_sections (cfg : ConfigParser) : list string :=
  filter (contains "pyvsgen.solution") (sections cfg).

(** [PyvsgenSuite(filename)].  [fs] is the file system as the parser sees it:
    the parsed content of a file, or [None] when it cannot be read. *)
Definition __init__ (fs : string -> option ConfigParser) (filename : string)
  : M PyvsgenSuite :=
  match fs filename with
  | None => raise (unreadable filename)
  | Some config =>
      match get_fb config "pyvsgen" "root" (fun v => Some v) None with
      | None | Some EmptyString => raise root_expected
      | Some root =>
          config' <- lift (set config "pyvsgen" "root" (resolved_root filename root)) ;;
          solutions <-
            mapM (fun s => _getsolution config' s no_kwargs)
              (solution_sections config') ;;
          ret (mkSuite solutions)
      end
  end.

(** ** Sorting and sets *)

(** [sorted(l, key=key)] for string keys: a stable sort. *)
Fixpoint insert_sorted {A} (key : A -> string) (x : A) (l : list A) : list A :=
  match l with
  | [] => [x]
  | y :: l' =>
      if String.leb (key x) (key y) then x :: y :: l'
      else y :: insert_sorted key x l'
  end.

Definition sorted {A} (key : A -> string) (l : list A) : list A :=
  fold_right (insert_sorted key) [] l.

(** [set.add]: an element equal to one already held is dropped. *)
Definition set_add {A} (eqb : A -> A -> bool) (held : list A) (x : A) : list A :=
  if existsb (fun y => eqb y x) held then held else held ++ [x].

(** The elements [set(l)] holds, in the order they were first inserted. *)
Definition set_elements {A} (eqb : A -> A -> bool) (l : list A) : list A :=
  fold_left (set_add eqb) l [].

(** Iterating over [set(l)]. *)
Definition project_set (l : list Project) : list Project :=
  project_set_order (set_elements project_eq l).

Definition interpreter_set (l : list Interpreter) : list Interpreter :=
  interpreter_set_order (set_elements interpreter_eq l).

(** ** write

    The three commands are not in the module; [write] is modelled by what it
    hands to each of them, in the order the command iterates over it. *)

Record Batches : Type := mkBatches {
  solutions_batch : list Solution;
  projects_batch : list Project;
  interpreters_batch : list Interpreter
}.

(** The generator [(p for s in solutions for p in s.Projects)]. *)
Definition all_projects (solutions : list Solution) : list Project :=
  flat_map s_Projects solutions.

Definition write (self : PyvsgenSuite) : Batches :=
  let solutions := sorted s_Name (_solutions self) in
  let projects := project_set (sorted p_Name (all_projects solutions)) in
  let interpreters := interpreter_set (flat_map p_PythonInterpreters projects) in
  mkBatches solutions projects interpreters.

End Suite.

(** ** The demo's entry point ([tests/data/pyvsgendemo/__main__.py])

    [main] builds one Solution (its class is not in the repository's
    sources, so the Solution is an argument) and runs the three batches;
    the script block extends [sys.path] before calling it. *)

Definition main {E : Env} (demo_solution : Solution) : Batches * Z :=
  let solutions := [demo_solution] in
  let projects := project_set (sorted p_Name (all_projects solutions)) in
  let interpretters :=
    interpreter_set (flat_map p_PythonInterpreters projects) in
  (mkBatches solutions projects interpretters, 0%Z).

(** The two directories the script block offers to [sys.path]. *)
Definition path_candidates {E : Env} (filePath : string) : list string :=
  [ path_join filePath "..";
    path_join (path_join (path_join filePath "..") "..") ".." ].

(** [p not in sys.path] *)
Definition not_in_path (sys_path : list string) (p : string) : bool :=
  negb (existsb (String.eqb p) sys_path).

(** The loop of the script block: the list of normalized candidates is built
    first, then each is appended. *)
Definition extend_sys_path {E : Env} (sys_path : list string)
  (filePath : string) : list string :=
  fold_left (fun path_list path => path_list ++ [path])
    (map normpath (filter (not_in_path sys_path) (path_candidates filePath)))
    sys_path.

(** ** Reference environments

    Concrete instances of the interface, used to run the model: POSIX-style
    paths that are already normal, decimal floats, comma-separated lists
    whose getter falls back to the empty list, entity classes that keep
    Python's default equality (object identity). *)

Module Reference.

Fixpoint last_slash (s : string) : option nat :=
  match s with
  | EmptyString => None
  | String c s' =>
      match last_slash s' with
      | Some n => Some (S n)
      | None => if Ascii.eqb c "/"%char then Some 0 else None
      end
  end.

Definition posix_dirname (p : string) : string :=
  match last_slash p with
  | None => EmptyString
  | Some 0 => "/"
  | Some n => String.substring 0 n p
  end.

Definition posix_join (a b : string) : string :=
  if String.prefix "/" b then b
  else match a with
       | EmptyString => b
       | _ => if String.eqb a "/" then a ++ b else a ++ "/" ++ b
       end.

Definition digit_of (c : ascii) : option nat :=
  let n := nat_of_ascii c in
  if Nat.leb 48 n && Nat.leb n 57 then Some (n - 48) else None.

(** digits read so far as (value, count) *)
Fixpoint read_digits (s : string) (acc : nat * nat) : option (nat * nat) :=
  match s with
  | EmptyString => Some acc
  | String c s' =>
      match digit_of c with
      | Some d => read_digits s' (10 * fst acc + d, S (snd acc))
      | None => None
      end
  end.

Definition float_of_nat (n : nat) : float :=
  PrimFloat.of_uint63 (Uint63.of_Z (Z.of_nat n)).

Definition decimal_float (v : string) : option float :=
  match split_on "."%char (strip v) with
  | [i] =>
      match read_digits i (0, 0) with
      | Some (n, S _) => Some (float_of_nat n)
      | _ => None
      end
  | [i; f] =>
      match read_digits i (0, 0), read_digits f (0, 0) with
      | Some (n, ni), Some (m, nf) =>
          match ni + nf with
          | 0 => None
          | _ => Some (float_of_nat n + float_of_nat m / float_of_nat (10 ^ nf))%float
          end
      | _, _ => None
      end
  | _ => None
  end.

Definition empty_project : Project :=
  mkProject 0 None "" "" [] "" "" "" "" "" [] [] [] [] [] [] [] [] false [] [] None [].

Definition same_project (p q : Project) : bool := Nat.eqb (p_id p) (p_id q).
Definition same_interpreter (i j : Interpreter) : bool := Nat.eqb (i_id i) (i_id j).

(** Sets iterated in insertion order. *)
Definition ordered_env : Env :=
  mkEnv (fun p => p) posix_join posix_dirname decimal_float ","%char (Some [])
    "" "" None empty_project (fun p => p) (fun p => p) (fun _ _ => ([], []))
    same_project same_interpreter (fun l => l) (fun l => l)
    (fun l => Permutation_refl l) (fun l => Permutation_refl l).

(** Sets iterated in the reverse of insertion order. *)
Definition reversed_env : Env :=
  mkEnv (fun p => p) posix_join posix_dirname decimal_float ","%char (Some [])
    "" "" None empty_project (fun p => p) (fun p => p) (fun _ _ => ([], []))
    same_project same_interpreter (@rev Project) (@rev Interpreter)
    (fun l => Permutation_sym (Permutation_rev l))
    (fun l => Permutation_sym (Permutation_rev l)).

(** Entity classes whose equality compares the identity key of the data
    model: FileName for Projects, the path for Interpreters. *)
Definition keyed_env : Env :=
  mkEnv (fun p => p) posix_join posix_dirname decimal_float ","%char (Some [])
    "" "" None empty_project (fun p => p) (fun p => p) (fun _ _ => ([], []))
    (fun p q => String.eqb (p_FileName p) (p_FileName q))
    (fun i j => String.eqb (i_Path i) (i_Path j)) (fun l => l) (fun l => l)
    (fun l => Permutation_refl l) (fun l => Permutation_refl l).

(** A configuration with two solutions that both list project section
    [pyvsgen.project.p]; the project names one interpreter section twice. *)
Definition demo_config : ConfigParser :=
  mkConfig []
    [ ("pyvsgen", [("root", "work")]);
      ("pyvsgen.solution.b",
        [("name", "b"); ("filename", "b.sln");
         ("visual_studio_version", "14.0");
         ("projects", "pyvsgen.project.p, pyvsgen.project.q")]);
      ("pyvsgen.solution.a",
        [("name", "a"); ("filename", "a.sln");
         ("visual_studio_version", "14.0");
         ("projects", "pyvsgen.project.p")]);
      ("pyvsgen.project.p",
        [("name", "p"); ("filename", "p.pyproj");
         ("python_interpreter", "pyvsgen.interpreter.i");
         ("python_interpreters", "pyvsgen.interpreter.i, pyvsgen.interpreter.i")]);
      ("pyvsgen.project.q",
        [("name", "q"); ("filename", "q.pyproj");
         ("python_interpreter", "pyvsgen.interpreter.none");
         ("python_interpreters", "pyvsgen.interpreter.i")]);
      ("pyvsgen.interpreter.i",
        [("interpreter_paths", "py27, py34"); ("description", "Python")]) ].

Definition demo_fs (filename : string) : option ConfigParser :=
  if String.eqb filename "/etc/demo.cfg" then Some demo_config else None.

(** A configuration whose only solution-like section carries
    [pyvsgen.solution] inside its name, not at its start. *)
Definition stray_config : ConfigParser :=
  mkConfig []
    [ ("pyvsgen", [("root", "work")]);
      ("archive.pyvsgen.solution.old",
        [("name", "old"); ("visual_studio_version", "12.0")]) ].

Definition stray_fs (filename : string) : option ConfigParser :=
  if String.eqb filename "/etc/stray.cfg" then Some stray_config else None.

(** A configuration without [root]. *)
Definition rootless_config : ConfigParser :=
  mkConfig []
    [ ("pyvsgen", [("name", "demo")]);
      ("pyvsgen.solution.a", [("visual_studio_version", "14.0")]) ].

Definition rootless_fs (filename : string) : option ConfigParser :=
  if String.eqb filename "/etc/rootless.cfg" then Some rootless_config else None.

(** A configuration whose second solution has no Visual Studio version. *)
Definition unversioned_config : ConfigParser :=
  mkConfig []
    [ ("pyvsgen", [("root", "/work")]);
      ("pyvsgen.solution.a", [("visual_studio_version", "14.0")]);
      ("pyvsgen.solution.b", [("name", "b")]) ].

Definition unversioned_fs (filename : string) : option ConfigParser :=
  if String.eqb filename "/etc/unversioned.cfg" then Some unversioned_config
  else None.

(** A configuration with four faults: a solution that lists a project
    section that is not there, a solution whose version is not a number, a
    project whose [is_windows_application] is not a boolean word and a
    project that lists an interpreter section that is not there. *)
Definition faulty_config : ConfigParser :=
  mkConfig []
    [ ("pyvsgen", [("root", "/work")]);
      ("pyvsgen.solution.s",
        [("visual_studio_version", "14.0");
         ("projects", "pyvsgen.project.gone")]);
      ("pyvsgen.solution.t", [("visual_studio_version", "fourteen")]);
      ("pyvsgen.project.w",
        [("is_windows_application", "maybe"); ("python_interpreters", "")]);
      ("pyvsgen.project.d",
        [("python_interpreters", "pyvsgen.interpreter.gone")]) ].

Definition faulty_fs (filename : string) : option ConfigParser :=
  if String.eqb filename "/etc/faulty.cfg" then Some faulty_config else None.

(** A project that names one virtual-environment section twice. *)
Definition venv_config : ConfigParser :=
  mkConfig []
    [ ("pyvsgen", [("root", "/work")]);
      ("pyvsgen.project.v",
        [("python_interpreters", "");
         ("python_virtual_environments",
          "pyvsgen.virtualenv.e, pyvsgen.virtualenv.e")]);
      ("pyvsgen.virtualenv.e",
        [("environment_paths", "env"); ("description", "Env")]) ].

(** A project that lists three interpreter sections, none of them in
    alphabetical position. *)
Definition unsorted_config : ConfigParser :=
  mkConfig []
    [ ("pyvsgen", [("root", "/work")]);
      ("pyvsgen.solution.s",
        [("name", "s"); ("visual_studio_version", "14.0");
         ("projects", "pyvsgen.project.p")]);
      ("pyvsgen.project.p",
        [("name", "p");
         ("python_interpreters",
          "pyvsgen.interpreter.b, pyvsgen.interpreter.c, pyvsgen.interpreter.a")]);
      ("pyvsgen.interpreter.b",
        [("interpreter_paths", "b"); ("description", "B")]);
      ("pyvsgen.interpreter.c",
        [("interpreter_paths", "c"); ("description", "C")]);
      ("pyvsgen.interpreter.a",
        [("interpreter_paths", "a"); ("description", "A")]) ].

Definition unsorted_fs (filename : string) : option ConfigParser :=
  if String.eqb filename "/etc/unsorted.cfg" then Some unsorted_config
  else None.



(** A run from the initial state: the value returned (or [d] when the run
    raises) and the final state. *)
Definition run {A} (m : M A) (d : A) : A * state :=
  match m state0 with
  | (Ok a, st) => (a, st)
  | (Err _, st) => (d, st)
  end.

Definition run_init (E : Env) (fs : string -> option ConfigParser)
  (filename : string) : PyvsgenSuite * state :=
  run (@__init__ E fs filename) (mkSuite []).

Definition run_project (E : Env) (cfg : ConfigParser) (section : string)
  : Project * state :=
  run (@_getproject E cfg section no_kwargs) empty_project.

End Reference.


(** ** Vocabulary of the statements *)

(** The [pyvsgen] section gives no usable [root]: the option is missing
    (also from the defaults) or its value is empty. *)
Definition root_missing (cfg : ConfigParser) : bool :=
  match get cfg "pyvsgen" "root" with
  | Ok (String _ _) => false
  | _ => true
  end.

(** The state after a resolver was entered for [section] and did nothing
    else: no object constructed. *)
Definition entered (k : kind) (section : string) (st : state) : state :=
  mkState (next_id st) (Resolve k section :: trace st).

(** The naming convention of solution sections: [pyvsgen.solution.*]. *)
Definition is_solution_section (name : string) : bool :=
  String.prefix "pyvsgen.solution." name.

Definition kind_eqb (a b : kind) : bool :=
  match a, b with
  | KSolution, KSolution | KProject, KProject
  | KInterpreter, KInterpreter | KVirtualEnv, KVirtualEnv => true
  | _, _ => false
  end.

(** The sections for which a resolver of kind [k] was entered, oldest
    first. *)
Fixpoint resolved (k : kind) (tr : list event) : list string :=
  match tr with
  | [] => []
  | Resolve k' s :: tr' =>
      if kind_eqb k k' then resolved k tr' ++ [s] else resolved k tr'
  | Construct _ _ :: tr' => resolved k tr'
  end.

(** Ascending order of a list of names. *)
Fixpoint ascending (l : list string) : bool :=
  match l with
  | a :: (b :: _) as l' => String.leb a b && ascending l'
  | _ => true
  end.

(** [logs k m l]: whenever [m] returns, the sections for which it entered a
    resolver of kind [k] are exactly [l], in this order. *)
Definition logs (k : kind) {A} (m : M A) (l : list string) : Prop :=
  forall st a st',
    m st = (Ok a, st') ->
    resolved k (trace st') = resolved k (trace st) ++ l.

Definition when_kind (k k' : kind) (l : list string) : list string :=
  if kind_eqb k k' then l else [].

(** The interpreter-section names and virtual-environment names a project
    section lists. *)
Definition listed_interpreters {E : Env} (cfg : ConfigParser) (section : string)
  : list string :=
  match getlist cfg section "python_interpreters" None with
  | Ok names => names
  | Err _ => []
  end.

Definition listed_environments {E : Env} (cfg : ConfigParser) (section : string)
  : list string :=
  getlist_fb cfg section "python_virtual_environments" [].


(** The state after a resolver was entered for [section] and constructed its
    entity. *)
Definition started (k : kind) (section : string) (st : state) : state :=
  mkState (S (next_id st))
    (Construct k (next_id st) :: Resolve k section :: trace st).

(** The object [PyvsgenProject] returns when it is given identity [oid]. *)
Definition fresh_project {E : Env} (oid : nat) (kw : kwargs) : Project :=
  with_identity oid (kw_or kw (p_VSVersion project0)) project0.

(** The project [_getproject] returns once its fallible steps have produced
    the boolean [b], the interpreter mapping and the environment lists. *)
Definition populated {E : Env} (cfg : ConfigParser) (section : string)
  (p : Project) (b : bool) (mapping : dict (list Interpreter))
  (ves : list (list Interpreter)) : Project :=
  insert_files (get_fb cfg section "root_path" (fun v => v) "")
    (mkProject (p_id p) (p_VSVersion p)
       (get_fb cfg section "name" (fun v => v) (p_Name p))
       (getfile cfg section "filename" (p_FileName p))
       (getdirs cfg section "search_path" (p_SearchPath p))
       (getdir cfg section "output_path" (p_OutputPath p))
       (getdir cfg section "working_directory" (p_WorkingDirectory p))
       (get_fb cfg section "root_namespace" (fun v => v) (p_RootNamespace p))
       (getdir cfg section "project_home" (p_ProjectHome p))
       (getfile cfg section "startup_file" (p_StartupFile p))
       (getlist_fb cfg section "compile_files" (p_CompileFiles p))
       (getlist_fb cfg section "content_files" (p_ContentFiles p))
       (getlist_fb cfg section "compile_in_filter" (p_CompileInFilter p))
       (getlist_fb cfg section "compile_ex_filter" (p_CompileExFilter p))
       (getlist_fb cfg section "content_in_filter" (p_ContentInFilter p))
       (getlist_fb cfg section "content_ex_filter" (p_ContentExFilter p))
       (getdirs cfg section "directory_in_filter" (p_DirectoryInFilter p))
       (getdirs cfg section "directory_ex_filter" (p_DirectoryExFilter p))
       b
       (getlist_fb cfg section "python_interpreter_args"
          (p_PythonInterpreterArgs p))
       (concat (dict_values mapping))
       (select_interpreter mapping
          (get_fb cfg section "python_interpreter" (fun v => Some v) None))
       (concat ves)).

(** The options [_getproject] reads with a fallback. *)
Definition project_options_with_fallback : list string :=
  [ "name"; "filename"; "search_path"; "output_path"; "working_directory";
    "root_namespace"; "project_home"; "startup_file"; "compile_files";
    "content_files"; "compile_in_filter"; "compile_ex_filter";
    "content_in_filter"; "content_ex_filter"; "directory_in_filter";
    "directory_ex_filter"; "is_windows_application";
    "python_interpreter_args"; "python_interpreter";
    "python_virtual_environments"; "root_path" ].

(** The project resolved from a section that gives none of these options:
    every field keeps the value the constructor gave it, no interpreter is
    selected, there are no virtual environments and the files are those
    found under the empty root path. *)
Definition defaulted_project {E : Env} (oid : nat) (kw : kwargs)
  (interpreters : list Interpreter) : Project :=
  insert_files ""
    (mkProject oid (kw_or kw (p_VSVersion project0))
       (p_Name project0) (p_FileName project0) (p_SearchPath project0)
       (p_OutputPath project0) (p_WorkingDirectory project0)
       (p_RootNamespace project0) (p_ProjectHome project0)
       (p_StartupFile project0) (p_CompileFiles project0)
       (p_ContentFiles project0) (p_CompileInFilter project0)
       (p_CompileExFilter project0) (p_ContentInFilter project0)
       (p_ContentExFilter project0) (p_DirectoryInFilter project0)
       (p_DirectoryExFilter project0) (p_IsWindowsApplication project0)
       (p_PythonInterpreterArgs project0) interpreters None []).

(** Order of two entities by their sort key. *)
Definition key_le {A} (key : A -> string) (a b : A) : Prop :=
  String.leb (key a) (key b) = true.

(** Two entities the class's equality tells apart. *)
Definition distinct {A} (eqb : A -> A -> bool) (a b : A) : Prop :=
  eqb a b = false.

(** [grows m]: a run of [m] that returns never gives back an identity. *)
Definition grows {A} (m : M A) : Prop :=
  forall st a st', m st = (Ok a, st') -> next_id st <= next_id st'.

(** The entities a loop of constructor calls returns: one per element,
    numbered from [oid] on. *)
Fixpoint numbered {A B} (g : nat -> A -> B) (oid : nat) (l : list A) : list B :=
  match l with
  | [] => []
  | a :: l' => g oid a :: numbered g (S oid) l'
  end.

(** The trace after [n] constructions of kind [k], the first with identity
    [oid]. *)
Fixpoint constructed (k : kind) (oid n : nat) (tr : list event) : list event :=
  match n with
  | 0 => tr
  | S n' => constructed k (S oid) n' (Construct k oid :: tr)
  end.

(** The interpreters resolved from [section] when the next identity is
    [oid]. *)
Definition installations {E : Env} (cfg : ConfigParser) (section : string)
  (kw : kwargs) (oid : nat) : list Interpreter :=
  numbered
    (fun oid p =>
       mkInterpreter oid p
         (get_fb cfg section "description" (fun v => v)
            (installation_description p))
         (kw_VSVersion kw) false)
    oid (getdirs cfg section "interpreter_paths" []).

Definition environments {E : Env} (cfg : ConfigParser) (section : string)
  (kw : kwargs) (oid : nat) : list Interpreter :=
  numbered
    (fun oid p =>
       mkInterpreter oid p
         (get_fb cfg section "description" (fun v => v)
            (environment_description p))
         (kw_VSVersion kw) true)
    oid (getdirs cfg section "environment_paths" []).

(** Identities handed out between two positions of the allocator, each
    once. *)
Definition fresh_in (lo hi : nat) (ids : list nat) : Prop :=
  NoDup ids /\ Forall (fun i => lo <= i < hi) ids.

(** The identities of a Project and of the entities it holds, of a Solution
    and of a suite. *)
Definition project_ids (p : Project) : list nat :=
  p_id p :: map i_id (p_PythonInterpreters p)
         ++ map i_id (p_VirtualEnvironments p).

Definition solution_ids (s : Solution) : list nat :=
  s_id s :: flat_map project_ids (s_Projects s).

Definition suite_ids (suite : PyvsgenSuite) : list nat :=
  flat_map solution_ids (_solutions suite).


(** Modelled from the spec: the [__eq__] and [__hash__] of [PyvsgenProject]
    are not in the module.  The data model gives a Project's "identity for
    deduplication" as its "normalized FileName"; two Projects are equal when
    they have the same identity. *)
Definition project_identity {E : Env} (p : Project) : string :=
  normpath (p_FileName p).

(** Modelled from the spec: the equality of [PyvsgenProject], by identity
    key. *)
Definition project_identity_eq {E : Env} (p q : Project) : bool :=
  String.eqb (project_identity p) (project_identity q).

(** [keeps k m]: a run of [m], whether it returns or raises, enters no
    resolver of kind [k]. *)
Definition keeps (k : kind) {A} (m : M A) : Prop :=
  forall st r st', m st = (r, st') ->
                   resolved k (trace st') = resolved k (trace st).

(** * Properties *)

(** ** Running the monad *)

Lemma bind_run {A B} (m : M A) (k : A -> M B) (st : state) :
  bind m k st =
  match m st with
  | (Ok a, st') => k a st'
  | (Err e, st') => (Err e, st')
  end.
Proof. reflexivity. Qed.

Lemma bind_ok {A B} (m : M A) (k : A -> M B) st b st' :
  bind m k st = (Ok b, st') ->
  exists a st1, m st = (Ok a, st1) /\ k a st1 = (Ok b, st').
Proof.
  unfold bind. destruct (m st) as [[a | e] st1]; intro H.
  - exists a, st1. split; [reflexivity | exact H].
  - discriminate H.
Qed.

Lemma bind_err {A B} (m : M A) (k : A -> M B) st e st' :
  m st = (Err e, st') -> bind m k st = (Err e, st').
Proof. unfold bind. intros ->. reflexivity. Qed.

Lemma bind_step {A B} (m : M A) (k : A -> M B) st a st1 :
  m st = (Ok a, st1) -> bind m k st = k a st1.
Proof. unfold bind. intros ->. reflexivity. Qed.

Lemma lift_ok {A} (r : result A) st a st' :
  lift r st = (Ok a, st') -> r = Ok a /\ st' = st.
Proof. unfold lift. intro H. inversion H. auto. Qed.

(** Each element of a successful [mapM] is the result of its own call, in
    the order of the list. *)
Lemma mapM_ok {A B} (f : A -> M B) (l : list A) :
  forall st bs st',
    mapM f l st = (Ok bs, st') ->
    Forall2 (fun a b => exists s1 s2, f a s1 = (Ok b, s2)) l bs.
Proof.
  induction l as [| a l IH]; simpl; intros st bs st' H.
  - inversion H. constructor.
  - apply bind_ok in H. destruct H as (b & st1 & Hb & H).
    apply bind_ok in H. destruct H as (bs' & st2 & Hbs & H).
    inversion H; subst. constructor.
    + exists st, st1. exact Hb.
    + eapply IH. exact Hbs.
Qed.

(** [mapM] stops at the first element whose call raises. *)
Lemma mapM_app_err {A B} (f : A -> M B) (l1 : list A) :
  forall a l2 st bs st1 e st2,
    mapM f l1 st = (Ok bs, st1) ->
    f a st1 = (Err e, st2) ->
    mapM f (l1 ++ a :: l2) st = (Err e, st2).
Proof.
  induction l1 as [| x l1 IH]; simpl; intros a l2 st bs st1 e st2 H1 H2.
  - inversion H1; subst. apply bind_err. exact H2.
  - apply bind_ok in H1. destruct H1 as (b & s1 & Hb & H1).
    apply bind_ok in H1. destruct H1 as (bs' & s2 & Hbs & H1).
    inversion H1; subst.
    rewrite (bind_step _ _ _ _ _ Hb).
    apply bind_err. eapply IH; eassumption.
Qed.


(** ** Strings and the store *)

Lemma prefix_app (n b : string) : String.prefix n (n ++ b)%string = true.
Proof.
  induction n as [| c n IH]; simpl.
  - destruct b; reflexivity.
  - destruct (ascii_dec c c) as [_ | Hc]; [exact IH | contradiction].
Qed.

Lemma prefix_contains (n s : string) :
  String.prefix n s = true -> contains n s = true.
Proof. intro H. destruct s; unfold contains; fold contains; rewrite H; reflexivity. Qed.

Lemma contains_app (n a b : string) : contains n (a ++ n ++ b)%string = true.
Proof.
  induction a as [| c a IH].
  - change (contains n (n ++ b)%string = true).
    apply prefix_contains, prefix_app.
  - change (contains n (String c (a ++ n ++ b)%string) = true).
    unfold contains; fold contains. rewrite IH. apply orb_true_r.
Qed.

Lemma prefix_shorter (a b : string) :
  forall s, String.prefix (a ++ b)%string s = true -> String.prefix a s = true.
Proof.
  induction a as [| c a IH]; intros s H.
  - destruct s; reflexivity.
  - destruct s as [| c' s]; simpl in *; [discriminate H |].
    destruct (ascii_dec c c'); [apply IH; exact H | discriminate H].
Qed.

Lemma contains_skip (n a s : string) :
  contains n s = true -> contains n (a ++ s)%string = true.
Proof.
  intro H. induction a as [| c a IH].
  - exact H.
  - change (contains n (String c (a ++ s)%string) = true).
    unfold contains; fold contains. rewrite IH. apply orb_true_r.
Qed.

Lemma assoc_assoc_set {V} (k : string) (v : V) (l : list (string * V)) :
  assoc k (assoc_set k v l) = Some v.
Proof.
  induction l as [| [k' v'] l IH]; simpl.
  - rewrite String.eqb_refl. reflexivity.
  - destruct (String.eqb k k') eqn:Hk; simpl; rewrite Hk; auto.
Qed.

Lemma assoc_app_some {V} (k : string) (v : V) (l l' : list (string * V)) :
  assoc k l = Some v -> assoc k (l ++ l') = Some v.
Proof.
  induction l as [| [k' v'] l IH]; simpl; [discriminate |].
  destruct (String.eqb k k'); auto.
Qed.

Lemma map_fst_assoc_set {V} (k : string) (v : V) (l : list (string * V)) :
  assoc k l <> None -> map fst (assoc_set k v l) = map fst l.
Proof.
  induction l as [| [k' v'] l IH]; simpl; intro H.
  - contradiction.
  - destruct (String.eqb k k'); simpl; [reflexivity |].
    rewrite IH by exact H. reflexivity.
Qed.

Lemma has_section_assoc (cfg : ConfigParser) (s : string) :
  has_section cfg s = true -> exists d, assoc s (sects cfg) = Some d.
Proof.
  unfold has_section, sections. induction (sects cfg) as [| [k d] l IH]; simpl.
  - discriminate.
  - destruct (String.eqb s k); simpl; eauto.
Qed.

(** A lookup in a section that is in the store can only miss the option. *)
Lemma get_in_config (cfg : ConfigParser) (section opt : string) (e : error) :
  in_config section cfg = true ->
  get cfg section opt = Err e -> e = NoOptionError opt section.
Proof.
  unfold in_config, get. intros Hin H.
  destruct (String.eqb section default_section).
  - destruct (assoc opt ([] ++ defaults cfg)); congruence.
  - simpl in Hin. apply has_section_assoc in Hin. destruct Hin as (d & Hd).
    rewrite Hd in H. destruct (assoc opt (d ++ defaults cfg)); congruence.
Qed.

(** Storing a value and reading it back. *)
Lemma get_set (cfg cfg' : ConfigParser) (section opt value : string) :
  set cfg section opt value = Ok cfg' ->
  get cfg' section opt = Ok value /\ sections cfg' = sections cfg.
Proof.
  unfold set, get, sections.
  destruct (String.eqb section default_section) eqn:Hd.
  - intro H. inversion H; subst; simpl. split; [| reflexivity].
    rewrite (assoc_assoc_set opt value (defaults cfg)). reflexivity.
  - destruct (assoc section (sects cfg)) as [d |] eqn:Hs; intro H; [| discriminate].
    inversion H; subst; simpl. split.
    + rewrite assoc_assoc_set.
      rewrite (assoc_app_some _ _ _ (defaults cfg) (assoc_assoc_set opt value d)). reflexivity.
    + apply map_fst_assoc_set. congruence.
Qed.

Lemma assoc_set_other {V} (k k' : string) (v : V) (l : list (string * V)) :
  String.eqb k k' = false -> assoc k (assoc_set k' v l) = assoc k l.
Proof.
  intro Hk. induction l as [| [k0 v0] l IH]; simpl.
  - rewrite Hk. reflexivity.
  - destruct (String.eqb k' k0) eqn:H0; simpl.
    + apply String.eqb_eq in H0. subst k0. rewrite Hk. reflexivity.
    + rewrite IH. reflexivity.
Qed.

(** Storing into one section leaves the lookups in the others as they were. *)
Lemma get_set_other (cfg cfg' : ConfigParser) (s o v section opt : string) :
  String.eqb s default_section = false ->
  set cfg s o v = Ok cfg' ->
  String.eqb section s = false ->
  get cfg' section opt = get cfg section opt.
Proof.
  unfold set, get. intros -> H Hs.
  destruct (assoc s (sects cfg)) as [d |]; [| discriminate H].
  inversion H; subst; simpl.
  rewrite (assoc_set_other section s _ (sects cfg) Hs). reflexivity.
Qed.



Section Construction.

Context {E : Env}.

(** C6. When the [pyvsgen] section gives no [root] (option missing or value
    empty), the constructor raises the ValueError [root_expected] and leaves
    the state as it found it: no resolver was entered and no object was
    constructed, so no solution, project, interpreter or virtual-environment
    section was processed. *)
Theorem init_without_root (fs : string -> option ConfigParser)
  (filename : string) (cfg : ConfigParser) (st : state) :
  fs filename = Some cfg ->
  root_missing cfg = true ->
  __init__ fs filename st = (Err root_expected, st)
  /\ exists msg, root_expected = ValueError msg.
Proof.
  intros Hfs Hroot. split.
  - unfold __init__, root_missing, get_fb in *. rewrite Hfs.
    destruct (get cfg "pyvsgen" "root") as [[| c r] | e]; try reflexivity.
    discriminate Hroot.
  - unfold root_expected. eauto.
Qed.

(** C7. A resolver called for a section that is not in the configuration
    raises the ValueError [section_not_found], whose message holds the
    requested section and the list of available sections; the state it leaves
    records the call and nothing else, so no entity was constructed and no
    field was read. *)
Theorem missing_section_short_circuits (cfg : ConfigParser) (section : string)
  (kw : kwargs) (st : state) :
  in_config section cfg = false ->
  _getsolution cfg section kw st
    = (Err (section_not_found cfg section), entered KSolution section st)
  /\ _getproject cfg section kw st
    = (Err (section_not_found cfg section), entered KProject section st)
  /\ _getinterpreter cfg section kw st
    = (Err (section_not_found cfg section), entered KInterpreter section st)
  /\ _getvirtualenvironment cfg section kw st
    = (Err (section_not_found cfg section), entered KVirtualEnv section st)
  /\ exists msg,
       section_not_found cfg section = ValueError msg
       /\ contains section msg = true
       /\ contains (join_comma (sections cfg)) msg = true.
Proof.
  intro H.
  unfold _getsolution, _getproject, _getinterpreter, _getvirtualenvironment.
  repeat split; try (unfold bind, log; rewrite H; reflexivity).
  eexists. split; [reflexivity |]. split.
  - apply (contains_app section "Section [").
  - do 3 apply contains_skip. apply (contains_app _ "").
Qed.

End Construction.

(** ** Which resolvers a computation enters *)

Lemma logs_eq k {A} (m : M A) l l' : logs k m l -> l = l' -> logs k m l'.
Proof. intros H <-. exact H. Qed.

Lemma logs_ret k {A} (a : A) : logs k (ret a) [].
Proof. intros st a' st' H. inversion H; subst. now rewrite app_nil_r. Qed.

Lemma logs_lift k {A} (r : result A) : logs k (lift r) [].
Proof. intros st a' st' H. inversion H; subst. now rewrite app_nil_r. Qed.

Lemma logs_raise k {A} (e : error) l : logs k (@raise A e) l.
Proof. intros st a st' H. discriminate H. Qed.

Lemma logs_new_object k k' : logs k (new_object k') [].
Proof. intros st a st' H. inversion H; subst; simpl. now rewrite app_nil_r. Qed.

Lemma logs_log k k' s :
  logs k (log (Resolve k' s)) (if kind_eqb k k' then [s] else []).
Proof.
  intros st a st' H. inversion H; subst; simpl.
  destruct (kind_eqb k k'); [reflexivity | now rewrite app_nil_r].
Qed.

Lemma logs_bind k {A B} (m : M A) (f : A -> M B) l1 l2 :
  logs k m l1 -> (forall a, logs k (f a) l2) -> logs k (bind m f) (l1 ++ l2).
Proof.
  intros Hm Hf st b st' H. apply bind_ok in H.
  destruct H as (a & st1 & H1 & H2).
  rewrite (Hf a _ _ _ H2), (Hm _ _ _ H1). now rewrite app_assoc.
Qed.

Lemma logs_mapM k {A B} (f : A -> M B) (g : A -> list string) (l : list A) :
  (forall a, logs k (f a) (g a)) -> logs k (mapM f l) (flat_map g l).
Proof.
  intro Hf. induction l as [| a l IH]; simpl.
  - apply logs_ret.
  - apply logs_bind; [apply Hf |]. intro b.
    eapply logs_eq.
    + apply logs_bind; [exact IH |]. intro bs. apply logs_ret.
    + now rewrite app_nil_r.
Qed.

Lemma logs_dict_comprehension k {V} (f : string -> M V)
  (g : string -> list string) (keys : list string) :
  (forall n, logs k (f n) (g n)) ->
  forall d, logs k (dict_comprehension f keys d) (flat_map g keys).
Proof.
  intro Hf. induction keys as [| n keys IH]; simpl; intro d.
  - apply logs_ret.
  - apply logs_bind; [apply Hf |]. intro v. apply IH.
Qed.

Lemma flat_map_nil {A B} (l : list A) : flat_map (fun _ : A => @nil B) l = [].
Proof. induction l; simpl; auto. Qed.

Lemma logs_mapM_nil k {A B} (f : A -> M B) (l : list A) :
  (forall a, logs k (f a) []) -> logs k (mapM f l) [].
Proof.
  intro Hf. eapply logs_eq.
  - apply (logs_mapM k f (fun _ => [])). exact Hf.
  - apply flat_map_nil.
Qed.

Lemma logs_bind_nil k {A B} (m : M A) (f : A -> M B) :
  logs k m [] -> (forall a, logs k (f a) []) -> logs k (bind m f) [].
Proof. intros Hm Hf. apply (logs_bind k m f [] []); assumption. Qed.

Lemma logs_bind_lift k {A B} (r : result A) (f : A -> M B) l :
  (forall a, r = Ok a -> logs k (f a) l) -> logs k (bind (lift r) f) l.
Proof.
  intros Hf st b st' H. apply bind_ok in H.
  destruct H as (a & st1 & H1 & H2). apply lift_ok in H1.
  destruct H1 as (Hr & ->). exact (Hf a Hr _ _ _ H2).
Qed.

Lemma logs_bind_ret k {A B} (m : M A) (g : A -> B) l :
  logs k m l -> logs k (bind m (fun a => ret (g a))) l.
Proof.
  intro Hm. eapply logs_eq.
  - apply logs_bind; [exact Hm | intro; apply logs_ret].
  - apply app_nil_r.
Qed.

Lemma flat_map_when_kind k k' (l : list string) :
  flat_map (fun n => if kind_eqb k k' then [n] else []) l = when_kind k k' l.
Proof.
  unfold when_kind. destruct (kind_eqb k k').
  - induction l; simpl; congruence.
  - apply flat_map_nil.
Qed.

Section Resolution.

Context {E : Env}.

Lemma logs_from_python_installation k p kw :
  logs k (from_python_installation p kw) [].
Proof.
  unfold from_python_installation.
  apply logs_bind_nil; [apply logs_new_object | intro; apply logs_ret].
Qed.

Lemma logs_from_virtual_environment k p kw :
  logs k (from_virtual_environment p kw) [].
Proof.
  unfold from_virtual_environment.
  apply logs_bind_nil; [apply logs_new_object | intro; apply logs_ret].
Qed.

Lemma logs_getinterpreter k cfg section kw :
  logs k (_getinterpreter cfg section kw)
    (if kind_eqb k KInterpreter then [section] else []).
Proof.
  unfold _getinterpreter.
  eapply logs_eq.
  - apply logs_bind; [apply logs_log |]. intros _.
    destruct (negb (in_config section cfg)); [apply logs_raise |].
    apply logs_bind_nil; [| intro; apply logs_ret].
    destruct (getdirs cfg section "interpreter_paths" []).
    + apply logs_ret.
    + apply logs_mapM_nil. intro. apply logs_from_python_installation.
  - apply app_nil_r.
Qed.

Lemma logs_getvirtualenvironment k cfg section kw :
  logs k (_getvirtualenvironment cfg section kw)
    (if kind_eqb k KVirtualEnv then [section] else []).
Proof.
  unfold _getvirtualenvironment.
  eapply logs_eq.
  - apply logs_bind; [apply logs_log |]. intros _.
    destruct (negb (in_config section cfg)); [apply logs_raise |].
    apply logs_bind_nil; [| intro; apply logs_ret].
    destruct (getdirs cfg section "environment_paths" []).
    + apply logs_ret.
    + apply logs_mapM_nil. intro. apply logs_from_virtual_environment.
  - apply app_nil_r.
Qed.

Lemma logs_interpreter_mapping k cfg names kw :
  logs k (interpreter_mapping cfg names kw) (when_kind k KInterpreter names).
Proof.
  unfold interpreter_mapping. eapply logs_eq.
  - apply logs_dict_comprehension. intro n. apply logs_getinterpreter.
  - apply flat_map_when_kind.
Qed.

Lemma logs_getproject k cfg section kw :
  logs k (_getproject cfg section kw)
    (when_kind k KProject [section]
     ++ when_kind k KInterpreter (listed_interpreters cfg section)
     ++ when_kind k KVirtualEnv (listed_environments cfg section)).
Proof.
  unfold _getproject.
  apply logs_bind; [apply logs_log |]. intros _.
  destruct (negb (in_config section cfg)); [apply logs_raise |].
  apply (logs_bind k _ _ []).
  { unfold PyvsgenProject.
    apply logs_bind_nil; [apply logs_new_object | intro; apply logs_ret]. }
  intro p. apply logs_bind_lift. intros b _.
  apply logs_bind_lift. intros names Hnames.
  unfold listed_interpreters. rewrite Hnames.
  apply logs_bind; [apply logs_interpreter_mapping |]. intro mapping.
  apply logs_bind_ret. eapply logs_eq.
  - apply logs_mapM. intro n. apply logs_getvirtualenvironment.
  - apply flat_map_when_kind.
Qed.

Lemma logs_getsolution k cfg section kw :
  logs k (_getsolution cfg section kw)
    (when_kind k KSolution [section]
     ++ flat_map
          (fun ps =>
             when_kind k KProject [ps]
             ++ when_kind k KInterpreter (listed_interpreters cfg ps)
             ++ when_kind k KVirtualEnv (listed_environments cfg ps))
          (getlist_fb cfg section "projects" [])).
Proof.
  unfold _getsolution.
  apply logs_bind; [apply logs_log |]. intros _.
  destruct (negb (in_config section cfg)); [apply logs_raise |].
  apply (logs_bind k _ _ []).
  { unfold PyvsgenSolution.
    apply logs_bind_nil; [apply logs_new_object | intro; apply logs_ret]. }
  intro s. apply logs_bind_lift. intros v _.
  destruct (py_not v); [apply logs_raise |].
  apply logs_bind_ret. apply logs_mapM. intro ps. apply logs_getproject.
Qed.

End Resolution.

Section Discovery.

Context {E : Env}.

Lemma logs_solution_getsolution cfg section kw :
  logs KSolution (_getsolution cfg section kw) [section].
Proof.
  eapply logs_eq; [apply logs_getsolution |].
  unfold when_kind; simpl. now rewrite flat_map_nil.
Qed.

Lemma flat_map_singleton {A} (l : list A) : flat_map (fun a => [a]) l = l.
Proof. induction l; simpl; congruence. Qed.

(** C9 (amended). A constructed suite holds one Solution per section whose
    name contains [pyvsgen.solution], each the result of resolving that
    section, in the order of the configuration; the solution resolver is
    entered for these sections and no others.  Every section that follows
    the naming convention is among them. *)
Theorem solutions_from_matching_sections (fs : string -> option ConfigParser)
  (filename : string) (suite : PyvsgenSuite) (st st' : state) :
  __init__ fs filename st = (Ok suite, st') ->
  exists cfg cfg',
    fs filename = Some cfg
    /\ sections cfg' = sections cfg
    /\ Forall2
         (fun name s =>
            exists s1 s2, _getsolution cfg' name no_kwargs s1 = (Ok s, s2))
         (filter (contains "pyvsgen.solution") (sections cfg))
         (_solutions suite)
    /\ resolved KSolution (trace st')
       = resolved KSolution (trace st)
         ++ filter (contains "pyvsgen.solution") (sections cfg)
    /\ (forall name,
          In name (sections cfg) -> is_solution_section name = true ->
          In name (filter (contains "pyvsgen.solution") (sections cfg))).
Proof.
  unfold __init__. intro H.
  destruct (fs filename) as [cfg |]; [| discriminate H].
  destruct (get_fb cfg "pyvsgen" "root" (fun v => Some v) None)
    as [[| c r] |]; try discriminate H.
  apply bind_ok in H. destruct H as (cfg' & st1 & Hset & H).
  apply lift_ok in Hset. destruct Hset as (Hset & ->).
  apply get_set in Hset. destruct Hset as (_ & Hsec).
  apply bind_ok in H. destruct H as (solutions & st2 & Hmap & H).
  inversion H; subst; clear H. unfold solution_sections in Hmap.
  rewrite Hsec in Hmap.
  exists cfg, cfg'. repeat split; auto.
  - simpl. eapply mapM_ok. exact Hmap.
  - rewrite <- (flat_map_singleton (filter _ (sections cfg))).
    refine (logs_mapM KSolution _ (fun a => [a]) _ _ _ _ _ Hmap).
    intro name. apply logs_solution_getsolution.
  - intros name Hin Hname. apply filter_In. split; [exact Hin |].
    apply (prefix_contains "pyvsgen.solution").
    apply (prefix_shorter "pyvsgen.solution" "."). exact Hname.
Qed.

End Discovery.

Section Versions.

Context {E : Env}.


Lemma solution_section_not_pyvsgen (section : string) :
  contains "pyvsgen.solution" section = true ->
  String.eqb section "pyvsgen" = false.
Proof.
  intro H. destruct (String.eqb section "pyvsgen") eqn:Hs; [| reflexivity].
  apply String.eqb_eq in Hs. subst. discriminate H.
Qed.


End Versions.

Section Projects.

Context {E : Env}.

(** [_getproject] step by step: when its fallible steps succeed, so does
    it, with the project assembled from their results. *)
Lemma getproject_run cfg section kw st b names mapping st2 ves st3 :
  in_config section cfg = true ->
  getboolean cfg section "is_windows_application"
    (p_IsWindowsApplication project0) = Ok b ->
  getlist cfg section "python_interpreters" None = Ok names ->
  interpreter_mapping cfg names (mkKwargs (kw_or kw (p_VSVersion project0)))
    (started KProject section st) = (Ok mapping, st2) ->
  mapM (fun n => _getvirtualenvironment cfg n
                   (mkKwargs (kw_or kw (p_VSVersion project0))))
    (listed_environments cfg section) st2 = (Ok ves, st3) ->
  _getproject cfg section kw st
  = (Ok (populated cfg section (fresh_project (next_id st) kw) b mapping ves),
     st3).
Proof.
  intros Hin Hb Hnames Hmap Hves.
  unfold _getproject.
  unfold bind at 1. simpl. rewrite Hin. simpl.
  unfold PyvsgenProject. rewrite bind_run. simpl.
  unfold bind at 1, lift at 1. rewrite Hb.
  unfold bind at 1, lift at 1. rewrite Hnames.
  unfold bind at 1. unfold started in Hmap. simpl. rewrite Hmap.
  unfold bind at 1. unfold listed_environments in Hves. rewrite Hves.
  reflexivity.
Qed.

(** Replaying a run of [_getproject] in hypothesis [H], one step each. *)
Ltac project_entered H Hin :=
  unfold _getproject, bind at 1 in H; simpl in H; rewrite Hin in H;
  simpl in H; unfold PyvsgenProject in H; rewrite bind_run in H; simpl in H.

Ltac project_lifted H Hstep :=
  unfold bind at 1, lift at 1 in H; rewrite Hstep in H.

Ltac project_mapped H Hmap :=
  unfold bind at 1 in H; unfold started in Hmap; simpl in H;
  rewrite Hmap in H.

(** Conversely, a project that was returned went through these steps. *)
Lemma getproject_inv cfg section kw st p st' :
  _getproject cfg section kw st = (Ok p, st') ->
  exists b names mapping st2 ves,
    in_config section cfg = true
    /\ getboolean cfg section "is_windows_application"
         (p_IsWindowsApplication project0) = Ok b
    /\ getlist cfg section "python_interpreters" None = Ok names
    /\ interpreter_mapping cfg names (mkKwargs (kw_or kw (p_VSVersion project0)))
         (started KProject section st) = (Ok mapping, st2)
    /\ mapM (fun n => _getvirtualenvironment cfg n
                        (mkKwargs (kw_or kw (p_VSVersion project0))))
         (listed_environments cfg section) st2 = (Ok ves, st')
    /\ p = populated cfg section (fresh_project (next_id st) kw) b mapping ves.
Proof.
  intro H.
  destruct (in_config section cfg) eqn:Hin.
  2:{ unfold _getproject, bind at 1 in H. simpl in H. rewrite Hin in H.
      discriminate H. }
  destruct (getboolean cfg section "is_windows_application"
              (p_IsWindowsApplication project0)) as [b | e] eqn:Hb.
  2:{ project_entered H Hin. project_lifted H Hb. discriminate H. }
  destruct (getlist cfg section "python_interpreters" None)
    as [names | e] eqn:Hnames.
  2:{ project_entered H Hin. project_lifted H Hb. project_lifted H Hnames.
      discriminate H. }
  destruct (interpreter_mapping cfg names
              (mkKwargs (kw_or kw (p_VSVersion project0)))
              (started KProject section st)) as [[mapping | e] st2] eqn:Hmap.
  2:{ project_entered H Hin. project_lifted H Hb. project_lifted H Hnames.
      project_mapped H Hmap. discriminate H. }
  destruct (mapM (fun n => _getvirtualenvironment cfg n
                             (mkKwargs (kw_or kw (p_VSVersion project0))))
              (listed_environments cfg section) st2)
    as [[ves | e] st3] eqn:Hves.
  - rewrite (getproject_run cfg section kw st b names mapping st2 ves st3
               Hin Hb Hnames Hmap Hves) in H.
    inversion H; subst. exists b, names, mapping, st2, ves. auto 10.
  - project_entered H Hin. project_lifted H Hb. project_lifted H Hnames.
    project_mapped H Hmap. unfold bind at 1 in H.
    unfold listed_environments in Hves. rewrite Hves in H. discriminate H.
Qed.

(** [python_interpreters] is the one option [_getproject] reads without a
    fallback of its caller.  When the parser's list getter raises for such a
    lookup, a section of the store that does not give the option makes the
    resolver raise [NoOptionError] once [is_windows_application] has
    converted, right after the project was constructed. *)
Lemma missing_python_interpreters_raises (cfg : ConfigParser)
  (section : string) (kw : kwargs) (st : state) (b : bool) :
  getlist_unset = None ->
  in_config section cfg = true ->
  (exists e, get cfg section "python_interpreters" = Err e) ->
  getboolean cfg section "is_windows_application"
    (p_IsWindowsApplication project0) = Ok b ->
  _getproject cfg section kw st
  = (Err (NoOptionError "python_interpreters" section),
     started KProject section st).
Proof.
  intros Hunset Hin (e & He) Hb.
  assert (Hlist : getlist cfg section "python_interpreters" None
                  = Err (NoOptionError "python_interpreters" section)).
  { unfold getlist. rewrite He, Hunset.
    rewrite (get_in_config cfg section "python_interpreters" e Hin He).
    reflexivity. }
  unfold _getproject.
  unfold bind at 1. simpl. rewrite Hin. simpl.
  unfold PyvsgenProject. rewrite bind_run. simpl.
  unfold bind at 1, lift at 1. rewrite Hb.
  unfold bind at 1, lift at 1. rewrite Hlist. reflexivity.
Qed.

(** A section that gives none of the options read with a fallback resolves
    with every field at its default, whatever its interpreter names are. *)
Lemma absent_options_fall_back (cfg : ConfigParser)
  (section : string) (kw : kwargs) (st : state) :
  in_config section cfg = true ->
  (forall opt, In opt project_options_with_fallback ->
               exists e, get cfg section opt = Err e) ->
  forall names mapping st2,
    getlist cfg section "python_interpreters" None = Ok names ->
    interpreter_mapping cfg names
      (mkKwargs (kw_or kw (p_VSVersion project0)))
      (started KProject section st) = (Ok mapping, st2) ->
    _getproject cfg section kw st
    = (Ok (defaulted_project (next_id st) kw
             (concat (dict_values mapping))), st2).
Proof.
  intros Hin Habsent names mapping st2 Hnames Hmap.
  assert (Hb : getboolean cfg section "is_windows_application"
                 (p_IsWindowsApplication project0)
               = Ok (p_IsWindowsApplication project0)).
  { unfold getboolean.
    destruct (Habsent "is_windows_application") as (e & ->);
      [simpl; tauto | reflexivity]. }
  assert (Hve : listed_environments cfg section = []).
  { unfold listed_environments, getlist_fb, get_fb.
    destruct (Habsent "python_virtual_environments") as (e & ->);
      [simpl; tauto | reflexivity]. }
  rewrite (getproject_run cfg section kw st _ names mapping st2 [] st2
             Hin Hb Hnames Hmap).
  2:{ rewrite Hve. reflexivity. }
  unfold populated, defaulted_project, getfile, getdir, getdirs,
    getlist_fb, get_fb.
  repeat match goal with
         | |- context [get cfg section ?o] =>
             let e := fresh "e" in
             let H := fresh "H" in
             destruct (Habsent o) as (e & H); [simpl; tauto |];
             rewrite H; clear e H
         end.
  reflexivity.
Qed.

(** *** The interpreter mapping *)

Lemma keys_assoc_set {V} (n : string) (v : V) (d : dict V) :
  map fst (assoc_set n v d) = set_add String.eqb (map fst d) n.
Proof.
  unfold set_add. induction d as [| [k w] d IH]; simpl.
  - reflexivity.
  - rewrite (String.eqb_sym k n). destruct (String.eqb n k); simpl.
    + reflexivity.
    + rewrite IH. destruct (existsb (fun y => String.eqb y n) (map fst d));
        reflexivity.
Qed.

Lemma in_assoc_set {V} (n : string) (v : V) (d : dict V) k w :
  In (k, w) (assoc_set n v d) -> In (k, w) d \/ (k = n /\ w = v).
Proof.
  induction d as [| [k' w'] d IH]; simpl.
  - intros [H | []]. inversion H. auto.
  - destruct (String.eqb n k') eqn:Hn; simpl.
    + apply String.eqb_eq in Hn. subst k'.
      intros [H | H]; [inversion H; auto | auto].
    + intros [H | H]; [auto |]. destruct (IH H); auto.
Qed.

(** The keys of the mapping are the distinct names, in the order of their
    first occurrence; each value was returned by a call for its key. *)
Lemma dict_comprehension_ok {V} (f : string -> M V) (keys : list string) :
  forall d st d' st',
    dict_comprehension f keys d st = (Ok d', st') ->
    map fst d' = fold_left (set_add String.eqb) keys (map fst d)
    /\ forall n v, In (n, v) d' ->
         In (n, v) d \/ (In n keys /\ exists s1 s2, f n s1 = (Ok v, s2)).
Proof.
  induction keys as [| n keys IH]; simpl; intros d st d' st' H.
  - inversion H; subst. auto.
  - apply bind_ok in H. destruct H as (v & st1 & Hv & H).
    apply IH in H. destruct H as (Hkeys & Hvals). split.
    + rewrite Hkeys, keys_assoc_set. reflexivity.
    + intros k w Hin. destruct (Hvals k w Hin) as [Hd | (Hk & Hf)].
      * apply in_assoc_set in Hd. destruct Hd as [Hd | (-> & ->)]; eauto 6.
      * eauto.
Qed.

Lemma getsolution_inv cfg section kw st s st' :
  _getsolution cfg section kw st = (Ok s, st') ->
  exists v projects,
    getfloat cfg section "visual_studio_version"
      (kw_or kw solution_VSVersion0) = Ok v
    /\ py_not v = false
    /\ mapM (fun ps => _getproject cfg ps (mkKwargs v))
         (getlist_fb cfg section "projects" [])
         (started KSolution section st) = (Ok projects, st')
    /\ s = mkSolution (next_id st)
             (get_fb cfg section "name" (fun v => v) solution_Name0)
             (normpath (get_fb cfg section "filename" (fun v => v)
                          solution_FileName0))
             v projects.
Proof.
  unfold _getsolution. intro H.
  unfold bind at 1 in H. simpl in H.
  destruct (in_config section cfg); [| discriminate H]. simpl in H.
  unfold PyvsgenSolution in H. rewrite bind_run in H. simpl in H.
  unfold bind at 1, lift at 1 in H.
  destruct (getfloat cfg section "visual_studio_version"
              (kw_or kw solution_VSVersion0)) as [v | e]; [| discriminate H].
  destruct (py_not v) eqn:Hv; [discriminate H |].
  apply bind_ok in H. destruct H as (projects & st2 & Hmap & H).
  inversion H; subst. exists v, projects. auto.
Qed.

(** C3 (amended). A Solution holds one Project per entry of its [projects]
    list, each resolved by its own call, in list order and with repeated
    names kept.  For a Project, the interpreter resolver is entered once per
    entry of [python_interpreters], but the results go into a mapping keyed
    by section name: it has one entry per distinct name, and the Project's
    interpreters are the concatenation of the mapping's values. *)
Theorem references_resolved_per_occurrence (cfg : ConfigParser)
  (section : string) (kw : kwargs) (st st' : state) :
  (forall s,
     _getsolution cfg section kw st = (Ok s, st') ->
     Forall2
       (fun name p =>
          exists s1 s2,
            _getproject cfg name (mkKwargs (s_VSVersion s)) s1 = (Ok p, s2))
       (getlist_fb cfg section "projects" []) (s_Projects s)
     /\ resolved KProject (trace st')
        = resolved KProject (trace st) ++ getlist_fb cfg section "projects" [])
  /\ (forall p,
        _getproject cfg section kw st = (Ok p, st') ->
        exists names mapping,
          getlist cfg section "python_interpreters" None = Ok names
          /\ resolved KInterpreter (trace st')
             = resolved KInterpreter (trace st) ++ names
          /\ map fst mapping = set_elements String.eqb names
          /\ (forall n l, In (n, l) mapping ->
                In n names
                /\ exists s1 s2,
                     _getinterpreter cfg n (mkKwargs (p_VSVersion p)) s1
                     = (Ok l, s2))
          /\ p_PythonInterpreters p = concat (map snd mapping)).
Proof.
  split.
  - intros s H. split.
    + destruct (getsolution_inv _ _ _ _ _ _ H)
        as (v & projects & _ & _ & Hmap & ->). simpl.
      eapply mapM_ok. exact Hmap.
    + rewrite (logs_getsolution KProject cfg section kw _ _ _ H).
      unfold when_kind. simpl. f_equal. apply flat_map_singleton.
  - intros p H.
    pose proof (logs_getproject KInterpreter cfg section kw _ _ _ H) as Hlog.
    destruct (getproject_inv _ _ _ _ _ _ H)
      as (b & names & mapping & st2 & ves & _ & _ & Hnames & Hmap & _ & ->).
    exists names, mapping. split; [exact Hnames |]. split.
    { rewrite Hlog. unfold when_kind, listed_interpreters. simpl.
      rewrite Hnames, app_nil_r. reflexivity. }
    unfold interpreter_mapping in Hmap.
    apply dict_comprehension_ok in Hmap. destruct Hmap as (Hkeys & Hvals).
    split; [exact Hkeys |]. split; [| reflexivity].
    intros n l Hin. destruct (Hvals n l Hin) as [[] | Hf]. exact Hf.
Qed.

End Projects.

(** ** The resolved root *)

Section Rooting.

Context {E : Env}.

(** A Solution's FileName is the [filename] of its section (or the class
    default) after [os.path.normpath]: line 57 reads it with the plain
    getter. *)
Lemma solution_filename_normalized (cfg : ConfigParser)
  (names : list string) (kw : kwargs) (st : state) (solutions : list Solution)
  (st' : state) :
  mapM (fun s => _getsolution cfg s kw) names st = (Ok solutions, st') ->
  Forall2
    (fun name s =>
       s_FileName s
       = normpath (get_fb cfg name "filename" (fun v => v) solution_FileName0))
    names solutions.
Proof.
  intro Hmap. apply mapM_ok in Hmap. revert Hmap. apply Forall2_impl.
  intros name s (s1 & s2 & Hs).
  apply getsolution_inv in Hs. destruct Hs as (v & projects & _ & _ & _ & ->).
  reflexivity.
Qed.


End Rooting.

(** ** Sorting by name *)

Lemma string_leb_trans (s1 : string) :
  forall s2 s3,
    String.leb s1 s2 = true -> String.leb s2 s3 = true ->
    String.leb s1 s3 = true.
Proof.
  unfold String.leb.
  induction s1 as [| a s1 IH]; intros [| b s2] [| c s3]; simpl;
    try reflexivity; try discriminate.
  unfold Ascii.compare. intros H1 H2.
  destruct (N.compare_spec (N_of_ascii a) (N_of_ascii b)) as [Hab | Hab | Hab];
    destruct (N.compare_spec (N_of_ascii b) (N_of_ascii c)) as [Hbc | Hbc | Hbc];
    destruct (N.compare_spec (N_of_ascii a) (N_of_ascii c)) as [Hac | Hac | Hac];
    try discriminate; try reflexivity; try lia.
  eapply IH; eassumption.
Qed.

Section Sorting.

Variable A : Type.
Variable key : A -> string.

Lemma insert_sorted_perm (x : A) (l : list A) :
  Permutation (insert_sorted key x l) (x :: l).
Proof.
  induction l as [| y l IH]; simpl.
  - apply Permutation_refl.
  - destruct (String.leb (key x) (key y)).
    + apply Permutation_refl.
    + eapply perm_trans; [apply perm_skip, IH | apply perm_swap].
Qed.

Lemma sorted_perm (l : list A) : Permutation (sorted key l) l.
Proof.
  induction l as [| x l IH]; simpl.
  - constructor.
  - eapply perm_trans; [apply insert_sorted_perm | apply perm_skip, IH].
Qed.

Lemma insert_sorted_strongly (x : A) (l : list A) :
  StronglySorted (key_le key) l -> StronglySorted (key_le key) (insert_sorted key x l).
Proof.
  induction 1 as [| y l Hl IH Hy]; simpl.
  - repeat constructor.
  - destruct (String.leb (key x) (key y)) eqn:Hxy.
    + constructor; [constructor; assumption |].
      constructor; [exact Hxy |].
      eapply Forall_impl; [| exact Hy].
      intros z Hz. unfold key_le in *. eapply string_leb_trans; eassumption.
    + constructor; [exact IH |].
      apply (Permutation_Forall (Permutation_sym (insert_sorted_perm x l))).
      constructor; [| exact Hy].
      unfold key_le. destruct (String.leb_total (key x) (key y)) as [H | H];
        congruence.
Qed.

Lemma sorted_strongly (l : list A) : StronglySorted (key_le key) (sorted key l).
Proof.
  induction l as [| x l IH]; simpl.
  - constructor.
  - apply insert_sorted_strongly, IH.
Qed.

Lemma ascending_strongly (l : list A) :
  StronglySorted (key_le key) l -> ascending (map key l) = true.
Proof.
  induction 1 as [| x l Hl IH Hx]; [reflexivity |].
  destruct l as [| y l]; [reflexivity |].
  change (String.leb (key x) (key y) && ascending (map key (y :: l)) = true).
  rewrite IH. inversion Hx; subst. unfold key_le in *.
  rewrite H1. reflexivity.
Qed.

End Sorting.

(** ** Sets *)

Section Sets.

Variable A : Type.
Variable eqb : A -> A -> bool.

Lemma ForallOrdPairs_snoc (R : A -> A -> Prop) (l : list A) (x : A) :
  ForallOrdPairs R l -> Forall (fun y => R y x) l ->
  ForallOrdPairs R (l ++ [x]).
Proof.
  induction 1 as [| y l Hy Hl IH]; simpl; intro Hx.
  - repeat constructor.
  - inversion Hx; subst. constructor.
    + apply Forall_app. split; [exact Hy | repeat constructor; assumption].
    + apply IH. assumption.
Qed.

Lemma set_add_distinct (held : list A) (x : A) :
  ForallOrdPairs (distinct eqb) held -> ForallOrdPairs (distinct eqb) (set_add eqb held x).
Proof.
  intro H. unfold set_add.
  destruct (existsb (fun y => eqb y x) held) eqn:Hex; [exact H |].
  apply ForallOrdPairs_snoc; [exact H |].
  apply Forall_forall. intros y Hy. unfold distinct.
  destruct (eqb y x) eqn:Hyx; [| reflexivity].
  assert (existsb (fun y => eqb y x) held = true)
    by (apply existsb_exists; eauto).
  congruence.
Qed.

Lemma set_add_in (held : list A) (a x : A) :
  In x (set_add eqb held a) <->
  In x held \/ (x = a /\ existsb (fun y => eqb y a) held = false).
Proof.
  unfold set_add. destruct (existsb (fun y => eqb y a) held).
  - split; [auto | intros [H | (_ & H)]; [exact H | discriminate H]].
  - rewrite in_app_iff. simpl. split.
    + intros [H | [<- | []]]; auto.
    + intros [H | (-> & _)]; auto.
Qed.

Lemma set_add_all (l : list A) :
  forall held,
    ForallOrdPairs (distinct eqb) held ->
    let held' := fold_left (set_add eqb) l held in
    ForallOrdPairs (distinct eqb) held'
    /\ (forall x, In x held' -> In x held \/ In x l)
    /\ (forall x, In x held -> In x held')
    /\ (forall x, In x l -> exists y, In y held' /\ (y = x \/ eqb y x = true)).
Proof.
  induction l as [| a l IH]; simpl; intros held Hd.
  - repeat split; auto. intros x [].
  - destruct (IH (set_add eqb held a) (set_add_distinct held a Hd))
      as (H1 & H2 & H3 & H4).
    repeat split.
    + exact H1.
    + intros x Hx. destruct (H2 x Hx) as [Hx' | Hx']; [| auto].
      apply set_add_in in Hx'. destruct Hx' as [Hx' | (-> & _)]; auto.
    + intros x Hx. apply H3, set_add_in. auto.
    + intros x [-> | Hx]; [| apply H4, Hx].
      destruct (existsb (fun y => eqb y x) held) eqn:Hex.
      * apply existsb_exists in Hex. destruct Hex as (y & Hy & Hyx).
        exists y. split; [apply H3, set_add_in; auto | auto].
      * exists x. split; [apply H3, set_add_in; auto | auto].
Qed.

Lemma set_elements_spec (l : list A) :
  ForallOrdPairs (distinct eqb) (set_elements eqb l)
  /\ (forall x, In x (set_elements eqb l) -> In x l)
  /\ (forall x, In x l ->
        exists y, In y (set_elements eqb l) /\ (y = x \/ eqb y x = true)).
Proof.
  destruct (set_add_all l [] (FOP_nil _)) as (H1 & H2 & _ & H4).
  repeat split; auto.
  intros x Hx. destruct (H2 x Hx) as [[] | H]. exact H.
Qed.

End Sets.

(** ** The batches of write *)

Section Writing.

Context {E : Env}.

Lemma all_projects_sorted (solutions : list Solution) :
  Permutation (all_projects (sorted s_Name solutions)) (all_projects solutions).
Proof. unfold all_projects. apply Permutation_flat_map, sorted_perm. Qed.

(** The Projects handed to the project write phase are the elements of a
    Python set: every Project of every Solution is in the batch or has a
    representative there that the class's equality takes for equal, every
    element of the batch is a Project of some Solution, and no two elements
    of the batch are equal for the class's equality. *)
Lemma projects_batch_one_per_equality_class (suite : PyvsgenSuite) :
  (exists held,
     Permutation (projects_batch (write suite)) held
     /\ ForallOrdPairs (distinct project_eq) held)
  /\ (forall q, In q (projects_batch (write suite)) ->
               In q (all_projects (_solutions suite)))
  /\ (forall p, In p (all_projects (_solutions suite)) ->
        exists q, In q (projects_batch (write suite))
                  /\ (q = p \/ project_eq q p = true)).
Proof.
  unfold write, project_set; simpl.
  set (by_name := sorted p_Name (all_projects (sorted s_Name (_solutions suite)))).
  assert (Hperm : Permutation by_name (all_projects (_solutions suite))).
  { eapply perm_trans; [apply sorted_perm | apply all_projects_sorted]. }
  destruct (set_elements_spec _ project_eq by_name) as (Hd & Hin & Hrep).
  pose proof (project_set_order_perm (set_elements project_eq by_name)) as Hord.
  split; [| split].
  - exists (set_elements project_eq by_name). split; assumption.
  - intros q Hq. apply (Permutation_in _ Hperm), Hin.
    apply (Permutation_in _ Hord). exact Hq.
  - intros p Hp.
    destruct (Hrep p (Permutation_in _ (Permutation_sym Hperm) Hp))
      as (q & Hq & Hqp).
    exists q. split; [| exact Hqp].
    apply (Permutation_in _ (Permutation_sym Hord)). exact Hq.
Qed.

End Writing.

(** ** Object identities are fresh *)

Lemma grows_ret {A} (a : A) : grows (ret a).
Proof. intros st a' st' H. inversion H; subst. lia. Qed.

Lemma grows_lift {A} (r : result A) : grows (lift r).
Proof. intros st a' st' H. inversion H; subst. lia. Qed.

Lemma grows_raise {A} (e : error) : grows (@raise A e).
Proof. intros st a st' H. discriminate H. Qed.

Lemma grows_log (e : event) : grows (log e).
Proof. intros st a st' H. inversion H; subst; simpl. lia. Qed.

Lemma grows_new_object (k : kind) : grows (new_object k).
Proof. intros st a st' H. inversion H; subst; simpl. lia. Qed.

Lemma grows_bind {A B} (m : M A) (f : A -> M B) :
  grows m -> (forall a, grows (f a)) -> grows (bind m f).
Proof.
  intros Hm Hf st b st' H. apply bind_ok in H.
  destruct H as (a & st1 & H1 & H2).
  specialize (Hm _ _ _ H1). specialize (Hf a _ _ _ H2). lia.
Qed.

Lemma grows_mapM {A B} (f : A -> M B) (l : list A) :
  (forall a, grows (f a)) -> grows (mapM f l).
Proof.
  intro Hf. induction l as [| a l IH]; simpl.
  - apply grows_ret.
  - apply grows_bind; [apply Hf |]. intro b.
    apply grows_bind; [exact IH |]. intro bs. apply grows_ret.
Qed.

Lemma grows_dict_comprehension {V} (f : string -> M V) (keys : list string) :
  (forall n, grows (f n)) -> forall d, grows (dict_comprehension f keys d).
Proof.
  intro Hf. induction keys as [| n keys IH]; simpl; intro d.
  - apply grows_ret.
  - apply grows_bind; [apply Hf |]. intro v. apply IH.
Qed.

Section Freshness.

Context {E : Env}.

Lemma grows_getinterpreter cfg section kw :
  grows (_getinterpreter cfg section kw).
Proof.
  unfold _getinterpreter.
  apply grows_bind; [apply grows_log |]. intros _.
  destruct (negb (in_config section cfg)); [apply grows_raise |].
  apply grows_bind; [| intro; apply grows_ret].
  destruct (getdirs cfg section "interpreter_paths" []).
  - apply grows_ret.
  - apply grows_mapM. intro p. unfold from_python_installation.
    apply grows_bind; [apply grows_new_object | intro; apply grows_ret].
Qed.

Lemma grows_getvirtualenvironment cfg section kw :
  grows (_getvirtualenvironment cfg section kw).
Proof.
  unfold _getvirtualenvironment.
  apply grows_bind; [apply grows_log |]. intros _.
  destruct (negb (in_config section cfg)); [apply grows_raise |].
  apply grows_bind; [| intro; apply grows_ret].
  destruct (getdirs cfg section "environment_paths" []).
  - apply grows_ret.
  - apply grows_mapM. intro p. unfold from_virtual_environment.
    apply grows_bind; [apply grows_new_object | intro; apply grows_ret].
Qed.

(** A resolved Project has the identity that was next when its resolver was
    entered, and the resolver leaves the allocator beyond it. *)
Lemma getproject_identity cfg section kw st p st' :
  _getproject cfg section kw st = (Ok p, st') ->
  p_id p = next_id st /\ next_id st < next_id st'.
Proof.
  intro H. destruct (getproject_inv _ _ _ _ _ _ H)
    as (b & names & mapping & st2 & ves & _ & _ & _ & Hmap & Hves & ->).
  split; [reflexivity |].
  apply (grows_dict_comprehension _ names
           (fun n => grows_getinterpreter cfg n _)) in Hmap.
  apply (grows_mapM _ _ (fun n => grows_getvirtualenvironment cfg n _)) in Hves.
  simpl in Hmap. lia.
Qed.

(** The Projects a loop of resolver calls returns carry increasing
    identities, all taken from the allocator during the loop. *)
Lemma projects_identities (f : string -> M Project) (names : list string) :
  (forall n st p st', f n st = (Ok p, st') ->
                      p_id p = next_id st /\ next_id st < next_id st') ->
  forall st ps st',
    mapM f names st = (Ok ps, st') ->
    StronglySorted lt (map p_id ps)
    /\ Forall (fun i => next_id st <= i < next_id st') (map p_id ps)
    /\ next_id st <= next_id st'.
Proof.
  intro Hf. induction names as [| n names IH]; simpl; intros st ps st' H.
  - inversion H; subst. simpl. repeat constructor.
  - apply bind_ok in H. destruct H as (p & st1 & Hp & H).
    apply bind_ok in H. destruct H as (ps' & st2 & Hps & H).
    inversion H; subst; clear H.
    destruct (Hf _ _ _ _ Hp) as (Hid & Hlt).
    destruct (IH _ _ _ Hps) as (Hs & Hb & Hle). simpl.
    split; [| split; [| lia]].
    + constructor; [exact Hs |].
      eapply Forall_impl; [| exact Hb]. simpl. intros i Hi. lia.
    + constructor; [lia |].
      eapply Forall_impl; [| exact Hb]. simpl. intros i Hi. lia.
Qed.

Lemma getsolution_identities cfg section kw st s st' :
  _getsolution cfg section kw st = (Ok s, st') ->
  StronglySorted lt (map p_id (s_Projects s))
  /\ Forall (fun i => next_id st <= i < next_id st') (map p_id (s_Projects s))
  /\ next_id st <= next_id st'.
Proof.
  intro H. destruct (getsolution_inv _ _ _ _ _ _ H)
    as (v & projects & _ & _ & Hmap & ->). simpl.
  apply (projects_identities _ _
           (fun n => getproject_identity cfg n (mkKwargs v))) in Hmap.
  destruct Hmap as (Hs & Hb & Hle). simpl in *.
  split; [exact Hs |]. split; [| lia].
  eapply Forall_impl; [| exact Hb]. simpl. intros i Hi. lia.
Qed.

Lemma StronglySorted_lt_app (l1 l2 : list nat) (mid : nat) :
  StronglySorted lt l1 -> StronglySorted lt l2 ->
  Forall (fun i => i < mid) l1 -> Forall (fun i => mid <= i) l2 ->
  StronglySorted lt (l1 ++ l2).
Proof.
  induction 1 as [| x l1 Hl1 IH Hx]; simpl; intros H2 Hlo Hhi.
  - exact H2.
  - inversion Hlo; subst. constructor; [apply IH; assumption |].
    apply Forall_app. split; [exact Hx |].
    eapply Forall_impl; [| exact Hhi]. simpl. intros i Hi. lia.
Qed.

Lemma solutions_identities cfg kw (names : list string) :
  forall st ss st',
    mapM (fun n => _getsolution cfg n kw) names st = (Ok ss, st') ->
    StronglySorted lt (map p_id (all_projects ss))
    /\ Forall (fun i => next_id st <= i < next_id st')
         (map p_id (all_projects ss))
    /\ next_id st <= next_id st'.
Proof.
  induction names as [| n names IH]; simpl; intros st ss st' H.
  - inversion H; subst. simpl. repeat constructor.
  - apply bind_ok in H. destruct H as (s & st1 & Hs & H).
    apply bind_ok in H. destruct H as (ss' & st2 & Hss & H).
    inversion H; subst; clear H.
    destruct (getsolution_identities _ _ _ _ _ _ Hs) as (H1 & H2 & H3).
    destruct (IH _ _ _ Hss) as (H4 & H5 & H6).
    unfold all_projects in *. simpl. rewrite map_app.
    split; [| split; [| lia]].
    + apply (StronglySorted_lt_app _ _ (next_id st1)); auto.
      * eapply Forall_impl; [| exact H2]. simpl. intros i Hi. lia.
      * eapply Forall_impl; [| exact H5]. simpl. intros i Hi. lia.
    + apply Forall_app. split.
      * eapply Forall_impl; [| exact H2]. simpl. intros i Hi. lia.
      * eapply Forall_impl; [| exact H5]. simpl. intros i Hi. lia.
Qed.

Lemma StronglySorted_lt_NoDup (l : list nat) : StronglySorted lt l -> NoDup l.
Proof.
  induction 1 as [| x l Hl IH Hx]; constructor; [| exact IH].
  intro Hin. rewrite Forall_forall in Hx. specialize (Hx x Hin). lia.
Qed.

(** No two Projects of a constructed suite are the same object, also when
    they were resolved from the same section. *)
Lemma suite_projects_are_distinct_objects fs filename st suite st' :
  __init__ fs filename st = (Ok suite, st') ->
  NoDup (map p_id (all_projects (_solutions suite))).
Proof.
  unfold __init__. intro H.
  destruct (fs filename) as [cfg |]; [| discriminate H].
  destruct (get_fb cfg "pyvsgen" "root" (fun v => Some v) None)
    as [[| c r] |]; try discriminate H.
  apply bind_ok in H. destruct H as (cfg' & st1 & _ & H).
  apply bind_ok in H. destruct H as (solutions & st2 & Hmap & H).
  inversion H; subst; clear H. simpl.
  apply StronglySorted_lt_NoDup.
  apply (solutions_identities _ _ _ _ _ _ Hmap).
Qed.

End Freshness.

(** ** What a set keeps when equality is object identity *)

Lemma set_keeps_distinct {A} (eqb : A -> A -> bool) (f : A -> nat) :
  (forall a b, eqb a b = true -> f a = f b) ->
  forall l held,
    NoDup (map f (held ++ l)) ->
    fold_left (set_add eqb) l held = held ++ l.
Proof.
  intros Heq l. induction l as [| a l IH]; simpl; intros held Hnd.
  - now rewrite app_nil_r.
  - assert (Hex : existsb (fun y => eqb y a) held = false).
    { destruct (existsb (fun y => eqb y a) held) eqn:Hex; [| reflexivity].
      apply existsb_exists in Hex. destruct Hex as (y & Hy & Hya).
      apply Heq in Hya. rewrite map_app in Hnd. simpl in Hnd.
      apply NoDup_remove_2 in Hnd. exfalso. apply Hnd.
      apply in_or_app. left. rewrite <- Hya. apply in_map. exact Hy. }
    unfold set_add at 2. rewrite Hex.
    rewrite IH; rewrite <- app_assoc; [reflexivity | exact Hnd].
Qed.

Section Identity.

Context {E : Env}.

(** When the Project class keeps an equality that only objects with the
    same identity satisfy, the project write phase receives every Project
    of every Solution of a constructed suite: nothing is collapsed. *)
Lemma identity_equality_keeps_every_project fs filename st suite st' :
  (forall a b, project_eq a b = true -> p_id a = p_id b) ->
  __init__ fs filename st = (Ok suite, st') ->
  Permutation (projects_batch (write suite)) (all_projects (_solutions suite)).
Proof.
  intros Heq H. apply suite_projects_are_distinct_objects in H.
  unfold write, project_set; simpl.
  set (by_name := sorted p_Name (all_projects (sorted s_Name (_solutions suite)))).
  assert (Hperm : Permutation by_name (all_projects (_solutions suite))).
  { eapply perm_trans; [apply sorted_perm | apply all_projects_sorted]. }
  eapply perm_trans; [apply project_set_order_perm |].
  unfold set_elements.
  rewrite (set_keeps_distinct project_eq p_id Heq by_name []).
  - exact Hperm.
  - simpl. apply (Permutation_NoDup (Permutation_map p_id (Permutation_sym Hperm))).
    exact H.
Qed.

(** X20. When the Project class's equality compares FileName, the project
    batch of [write] holds one Project per FileName. *)
Lemma filename_equality_one_per_filename (suite : PyvsgenSuite) :
  (forall a b, project_eq a b = String.eqb (p_FileName a) (p_FileName b)) ->
  NoDup (map p_FileName (projects_batch (write suite))).
Proof.
  intro Heq. unfold write, project_set; simpl.
  set (by_name := sorted p_Name (all_projects (sorted s_Name (_solutions suite)))).
  apply (Permutation_NoDup
           (Permutation_map p_FileName
              (Permutation_sym
                 (project_set_order_perm (set_elements project_eq by_name))))).
  destruct (set_elements_spec _ project_eq by_name) as (Hd & _ & _).
  induction Hd as [| a l Ha Hl IH]; simpl; constructor; [| exact IH].
  intro Hin. apply in_map_iff in Hin. destruct Hin as (b & Hb & Hbl).
  rewrite Forall_forall in Ha. specialize (Ha b Hbl).
  unfold distinct in Ha. rewrite Heq, Hb, String.eqb_refl in Ha.
  discriminate Ha.
Qed.

End Identity.

(** ** One Project per identity *)

Lemma distinct_keys {A} (key : A -> string) (eqb : A -> A -> bool)
  (l : list A) :
  (forall a b, eqb a b = String.eqb (key a) (key b)) ->
  ForallOrdPairs (distinct eqb) l -> NoDup (map key l).
Proof.
  intros Heq Hd.
  induction Hd as [| a l Ha Hl IH]; simpl; constructor; [| exact IH].
  intro Hin. apply in_map_iff in Hin. destruct Hin as (b & Hb & Hbl).
  rewrite Forall_forall in Ha. specialize (Ha b Hbl).
  unfold distinct in Ha. rewrite Heq, Hb, String.eqb_refl in Ha.
  discriminate Ha.
Qed.

Lemma one_per_key {A} (key : A -> string) (l : list A) (q : A) :
  NoDup (map key l) -> In q l ->
  length (filter (fun x => String.eqb (key x) (key q)) l) = 1.
Proof.
  induction l as [| a l IH]; simpl; intros Hnd Hin; [contradiction |].
  inversion Hnd as [| k ks Hout Hnd']; subst.
  destruct Hin as [-> | Hin].
  - rewrite String.eqb_refl. simpl. f_equal.
    rewrite (proj2 (List.length_zero_iff_nil _)); [reflexivity |].
    destruct (filter _ l) as [| x xs] eqn:Hf; [reflexivity |].
    assert (Hx : In x (filter (fun x => String.eqb (key x) (key q)) l))
      by (rewrite Hf; left; reflexivity).
    apply filter_In in Hx. destruct Hx as (Hx & Hk).
    apply String.eqb_eq in Hk. exfalso. apply Hout. rewrite <- Hk.
    apply in_map. exact Hx.
  - destruct (String.eqb (key a) (key q)) eqn:Hk.
    + apply String.eqb_eq in Hk. exfalso. apply Hout. rewrite Hk.
      apply in_map. exact Hin.
    + apply IH; assumption.
Qed.

Section Deduplication.

Context {E : Env}.

(** C1. With the Project equality of the data model (same normalized
    FileName), the Projects handed to the project write phase hold exactly
    one representative per identity: no two entries of the batch have the
    same identity, every entry is a Project of some Solution, and for every
    Project of every Solution the batch has exactly one entry with that
    Project's identity, whatever object the Project is. *)
Theorem projects_batch_one_per_identity (suite : PyvsgenSuite) :
  (forall a b, project_eq a b = project_identity_eq a b) ->
  NoDup (map project_identity (projects_batch (write suite)))
  /\ (forall q, In q (projects_batch (write suite)) ->
                In q (all_projects (_solutions suite)))
  /\ (forall p, In p (all_projects (_solutions suite)) ->
        length
          (filter (fun q => String.eqb (project_identity q) (project_identity p))
             (projects_batch (write suite))) = 1).
Proof.
  intro Heq.
  destruct (projects_batch_one_per_equality_class suite)
    as ((held & Hperm & Hd) & Hsub & Hrep).
  assert (Hnd : NoDup (map project_identity (projects_batch (write suite)))).
  { apply (Permutation_NoDup
             (Permutation_map project_identity (Permutation_sym Hperm))).
    apply (distinct_keys project_identity project_eq held Heq Hd). }
  split; [exact Hnd |]. split; [exact Hsub |].
  intros p Hp. destruct (Hrep p Hp) as (q & Hq & Hqp).
  assert (Hkey : project_identity q = project_identity p).
  { destruct Hqp as [-> | Hqp]; [reflexivity |].
    rewrite Heq in Hqp. apply String.eqb_eq. exact Hqp. }
  rewrite <- Hkey. apply one_per_key; assumption.
Qed.

End Deduplication.

(** * Further properties of the suite builder *)

Section Builder.

Context {E : Env}.

(** A suite that was returned went through every step of the constructor. *)
Lemma init_inv fs filename st suite st' :
  __init__ fs filename st = (Ok suite, st') ->
  exists cfg root cfg',
    fs filename = Some cfg
    /\ get cfg "pyvsgen" "root" = Ok root
    /\ root <> EmptyString
    /\ set cfg "pyvsgen" "root" (resolved_root filename root) = Ok cfg'
    /\ mapM (fun s => _getsolution cfg' s no_kwargs) (solution_sections cfg') st
       = (Ok (_solutions suite), st').
Proof.
  unfold __init__, get_fb. intro H.
  destruct (fs filename) as [cfg |]; [| discriminate H].
  destruct (get cfg "pyvsgen" "root") as [[| c r] | e] eqn:Hget;
    try discriminate H.
  apply bind_ok in H. destruct H as (cfg' & st1 & Hset & H).
  apply lift_ok in Hset. destruct Hset as (Hset & ->).
  apply bind_ok in H. destruct H as (solutions & st2 & Hmap & H).
  inversion H; subst; clear H.
  exists cfg, (String c r), cfg'. repeat split; auto. discriminate.
Qed.

(** X1. A suite is only ever returned for a readable file whose [pyvsgen]
    section gives a non-empty [root], and every Solution it holds has a
    VSVersion that is neither [None] nor zero; there is one Solution per
    solution section. *)
Theorem constructed_suite_is_versioned (fs : string -> option ConfigParser)
  (filename : string) (st : state) (suite : PyvsgenSuite) (st' : state) :
  __init__ fs filename st = (Ok suite, st') ->
  exists cfg root,
    fs filename = Some cfg
    /\ get cfg "pyvsgen" "root" = Ok root
    /\ root <> EmptyString
    /\ length (_solutions suite) = length (solution_sections cfg)
    /\ Forall (fun s => py_not (s_VSVersion s) = false) (_solutions suite).
Proof.
  intro H. destruct (init_inv _ _ _ _ _ H)
    as (cfg & root & cfg' & Hfs & Hget & Hne & Hset & Hmap).
  exists cfg, root. repeat split; auto.
  - apply get_set in Hset. destruct Hset as (_ & Hsec).
    apply mapM_ok in Hmap. apply Forall2_length in Hmap.
    unfold solution_sections in *. rewrite Hsec in Hmap. symmetry. exact Hmap.
  - apply mapM_ok in Hmap.
    induction Hmap as [| name s names ss (s1 & s2 & Hs) _ IH]; constructor.
    + destruct (getsolution_inv _ _ _ _ _ _ Hs) as (v & ps & _ & Hv & _ & ->).
      exact Hv.
    + exact IH.
Qed.

(** X3. A project section whose [is_windows_application] is not one of the
    boolean words makes [_getproject] raise the conversion's ValueError: the
    Project has been constructed, and no interpreter or virtual-environment
    section has been entered. *)
Theorem bad_boolean_aborts_project (cfg : ConfigParser) (section : string)
  (kw : kwargs) (st : state) (v : string) :
  in_config section cfg = true ->
  get cfg section "is_windows_application" = Ok v ->
  boolean_state v = None ->
  _getproject cfg section kw st
  = (Err (ValueError ("Not a boolean: " ++ v)), started KProject section st).
Proof.
  intros Hin Hget Hv. unfold _getproject.
  unfold bind at 1. simpl. rewrite Hin. simpl.
  unfold PyvsgenProject. rewrite bind_run. simpl.
  unfold bind at 1, lift at 1, getboolean. rewrite Hget, Hv. reflexivity.
Qed.

(** X4. A solution section whose [visual_studio_version] does not convert
    to a float makes [_getsolution] raise the conversion's ValueError: the
    Solution has been constructed and none of its projects has been
    entered. *)
Theorem bad_version_aborts_solution (cfg : ConfigParser) (section : string)
  (kw : kwargs) (st : state) (v : string) :
  in_config section cfg = true ->
  get cfg section "visual_studio_version" = Ok v ->
  float_of_string v = None ->
  exists msg,
    _getsolution cfg section kw st
    = (Err (ValueError msg), started KSolution section st).
Proof.
  intros Hin Hget Hv. eexists. unfold _getsolution.
  unfold bind at 1. simpl. rewrite Hin. simpl.
  unfold PyvsgenSolution. rewrite bind_run. simpl.
  unfold bind at 1, lift at 1, getfloat. rewrite Hget, Hv. reflexivity.
Qed.

End Builder.

(** ** Interpreters and virtual environments *)

Lemma numbered_length {A B} (g : nat -> A -> B) (l : list A) :
  forall oid, length (numbered g oid l) = length l.
Proof. induction l; simpl; intros; [reflexivity | now rewrite IHl]. Qed.

Lemma numbered_map {A B C} (g : nat -> A -> B) (f : B -> C) (h : A -> C)
  (l : list A) :
  (forall oid a, f (g oid a) = h a) ->
  forall oid, map f (numbered g oid l) = map h l.
Proof.
  intro Hf. induction l; simpl; intros; [reflexivity |].
  now rewrite Hf, IHl.
Qed.

Lemma map_numbered {A B C} (g : nat -> A -> B) (f : B -> C) (l : list A) :
  forall oid, map f (numbered g oid l) = numbered (fun n a => f (g n a)) oid l.
Proof. induction l; simpl; intros; [reflexivity | now rewrite IHl]. Qed.

Lemma numbered_ids {A B} (g : nat -> A -> B) (f : B -> nat) (l : list A) :
  (forall oid a, f (g oid a) = oid) ->
  forall oid, map f (numbered g oid l) = seq oid (length l).
Proof.
  intro Hf. induction l; simpl; intros; [reflexivity |].
  now rewrite Hf, IHl.
Qed.

(** A loop of constructor calls never raises; it hands out consecutive
    identities. *)
Lemma constructors_run {A B} (k : kind) (g : nat -> A -> B) (l : list A) :
  forall st,
    mapM (fun a => bind (new_object k) (fun oid => ret (g oid a))) l st
    = (Ok (numbered g (next_id st) l),
       mkState (next_id st + length l)
         (constructed k (next_id st) (length l) (trace st))).
Proof.
  induction l as [| a l IH]; simpl; intro st.
  - unfold ret. rewrite Nat.add_0_r. destruct st; reflexivity.
  - rewrite bind_run. unfold bind at 1, new_object at 1. simpl.
    rewrite bind_run, IH. simpl.
    rewrite <- plus_n_Sm. reflexivity.
Qed.

Section Entities.

Context {E : Env}.

(** For a section of the store the interpreter resolver returns, and what
    it returns is determined by the section. *)
Lemma getinterpreter_run cfg section kw st :
  in_config section cfg = true ->
  _getinterpreter cfg section kw st
  = (Ok (installations cfg section kw (next_id st)),
     mkState (next_id st + length (getdirs cfg section "interpreter_paths" []))
       (constructed KInterpreter (next_id st)
          (length (getdirs cfg section "interpreter_paths" []))
          (Resolve KInterpreter section :: trace st))).
Proof.
  intro Hin. unfold _getinterpreter, installations.
  unfold bind at 1. simpl. rewrite Hin. simpl.
  rewrite bind_run.
  destruct (getdirs cfg section "interpreter_paths" []) as [| p ps] eqn:Hp.
  - unfold ret. simpl. rewrite Nat.add_0_r. reflexivity.
  - unfold from_python_installation.
    rewrite (constructors_run KInterpreter
               (fun oid path =>
                  mkInterpreter oid path (installation_description path)
                    (kw_VSVersion kw) false) (p :: ps)).
    unfold ret. rewrite map_numbered. reflexivity.
Qed.

Lemma getvirtualenvironment_run cfg section kw st :
  in_config section cfg = true ->
  _getvirtualenvironment cfg section kw st
  = (Ok (environments cfg section kw (next_id st)),
     mkState (next_id st + length (getdirs cfg section "environment_paths" []))
       (constructed KVirtualEnv (next_id st)
          (length (getdirs cfg section "environment_paths" []))
          (Resolve KVirtualEnv section :: trace st))).
Proof.
  intro Hin. unfold _getvirtualenvironment, environments.
  unfold bind at 1. simpl. rewrite Hin. simpl.
  rewrite bind_run.
  destruct (getdirs cfg section "environment_paths" []) as [| p ps] eqn:Hp.
  - unfold ret. simpl. rewrite Nat.add_0_r. reflexivity.
  - unfold from_virtual_environment.
    rewrite (constructors_run KVirtualEnv
               (fun oid path =>
                  mkInterpreter oid path (environment_description path)
                    (kw_VSVersion kw) true) (p :: ps)).
    unfold ret. rewrite map_numbered. reflexivity.
Qed.

(** A resolver that returned was called for a section of the store. *)
Lemma getinterpreter_ok_in_config cfg section kw st l st' :
  _getinterpreter cfg section kw st = (Ok l, st') ->
  in_config section cfg = true.
Proof.
  intro H. destruct (in_config section cfg) eqn:Hin; [reflexivity |].
  unfold _getinterpreter, bind at 1 in H. simpl in H. rewrite Hin in H.
  discriminate H.
Qed.

Lemma getvirtualenvironment_ok_in_config cfg section kw st l st' :
  _getvirtualenvironment cfg section kw st = (Ok l, st') ->
  in_config section cfg = true.
Proof.
  intro H. destruct (in_config section cfg) eqn:Hin; [reflexivity |].
  unfold _getvirtualenvironment, bind at 1 in H. simpl in H. rewrite Hin in H.
  discriminate H.
Qed.

(** X5. For a section of the store both entity resolvers return one entity
    per listed path, in the order of the list and with consecutive
    identities; every entity carries the section's [description] when it
    gives one.  A section that lists no path yields the empty list and
    constructs nothing. *)
Theorem one_entity_per_listed_path (cfg : ConfigParser) (section : string)
  (kw : kwargs) (st : state) :
  in_config section cfg = true ->
  (exists l st',
     _getinterpreter cfg section kw st = (Ok l, st')
     /\ map i_Path l = getdirs cfg section "interpreter_paths" []
     /\ map i_id l = seq (next_id st) (length l)
     /\ next_id st' = next_id st + length l
     /\ (forall d, get cfg section "description" = Ok d ->
                   Forall (fun i => i_Description i = d) l))
  /\ (exists l st',
        _getvirtualenvironment cfg section kw st = (Ok l, st')
        /\ map i_Path l = getdirs cfg section "environment_paths" []
        /\ map i_id l = seq (next_id st) (length l)
        /\ next_id st' = next_id st + length l
        /\ (forall d, get cfg section "description" = Ok d ->
                      Forall (fun i => i_Description i = d) l)).
Proof.
  intro Hin. split.
  - eexists _, _. split; [apply getinterpreter_run, Hin |].
    unfold installations. rewrite numbered_length.
    split; [rewrite numbered_map with (h := fun p => p);
            [apply map_id | reflexivity] |].
    split; [apply numbered_ids; reflexivity |].
    split; [reflexivity |].
    intros d Hd. unfold get_fb. rewrite Hd.
    generalize (next_id st).
    induction (getdirs cfg section "interpreter_paths" []); simpl; intro n;
      constructor; auto.
  - eexists _, _. split; [apply getvirtualenvironment_run, Hin |].
    unfold environments. rewrite numbered_length.
    split; [rewrite numbered_map with (h := fun p => p);
            [apply map_id | reflexivity] |].
    split; [apply numbered_ids; reflexivity |].
    split; [reflexivity |].
    intros d Hd. unfold get_fb. rewrite Hd.
    generalize (next_id st).
    induction (getdirs cfg section "environment_paths" []); simpl; intro n;
      constructor; auto.
Qed.

End Entities.

(** ** What a resolved Project holds *)

Lemma assoc_In {V} (k : string) (v : V) (d : list (string * V)) :
  assoc k d = Some v -> In (k, v) d.
Proof.
  induction d as [| [k' v'] d IH]; simpl; [discriminate |].
  destruct (String.eqb k k') eqn:Hk.
  - apply String.eqb_eq in Hk. subst k'. intro H. inversion H. auto.
  - auto.
Qed.

Section Holdings.

Context {E : Env}.

Lemma getinterpreter_result cfg section kw st l st' :
  _getinterpreter cfg section kw st = (Ok l, st') ->
  l = installations cfg section kw (next_id st).
Proof.
  intro H. pose proof (getinterpreter_ok_in_config _ _ _ _ _ _ H) as Hin.
  rewrite (getinterpreter_run cfg section kw st Hin) in H.
  inversion H. reflexivity.
Qed.

Lemma getvirtualenvironment_result cfg section kw st l st' :
  _getvirtualenvironment cfg section kw st = (Ok l, st') ->
  l = environments cfg section kw (next_id st).
Proof.
  intro H. pose proof (getvirtualenvironment_ok_in_config _ _ _ _ _ _ H) as Hin.
  rewrite (getvirtualenvironment_run cfg section kw st Hin) in H.
  inversion H. reflexivity.
Qed.

Lemma installations_paths cfg section kw oid :
  map i_Path (installations cfg section kw oid)
  = getdirs cfg section "interpreter_paths" [].
Proof.
  unfold installations.
  rewrite numbered_map with (h := fun p => p); [apply map_id | reflexivity].
Qed.

Lemma environments_paths cfg section kw oid :
  map i_Path (environments cfg section kw oid)
  = getdirs cfg section "environment_paths" [].
Proof.
  unfold environments.
  rewrite numbered_map with (h := fun p => p); [apply map_id | reflexivity].
Qed.

(** The mapping of a returned Project: its keys and where its values come
    from. *)
Lemma getproject_mapping cfg section kw st p st' :
  _getproject cfg section kw st = (Ok p, st') ->
  exists names mapping,
    getlist cfg section "python_interpreters" None = Ok names
    /\ map fst mapping = set_elements String.eqb names
    /\ (forall n l, In (n, l) mapping ->
          In n names
          /\ exists oid,
               l = installations cfg n
                     (mkKwargs (kw_or kw (p_VSVersion project0))) oid)
    /\ p_PythonInterpreters p = concat (map snd mapping)
    /\ p_PythonInterpreter p
       = select_interpreter mapping
           (get_fb cfg section "python_interpreter" (fun v => Some v) None).
Proof.
  intro H. destruct (getproject_inv _ _ _ _ _ _ H)
    as (b & names & mapping & st2 & ves & _ & _ & Hnames & Hmap & _ & ->).
  exists names, mapping. split; [exact Hnames |].
  unfold interpreter_mapping in Hmap.
  apply dict_comprehension_ok in Hmap. destruct Hmap as (Hkeys & Hvals).
  split; [exact Hkeys |]. split; [| split; reflexivity].
  intros n l Hin. destruct (Hvals n l Hin) as [[] | (Hn & s1 & s2 & Hf)].
  split; [exact Hn |]. exists (next_id s1).
  apply (getinterpreter_result _ _ _ _ _ _ Hf).
Qed.

(** X6. The paths of a Project's interpreters are the [interpreter_paths]
    of the sections its [python_interpreters] names, taken once per distinct
    name in the order of first occurrence. *)
Theorem interpreter_paths_of_distinct_names (cfg : ConfigParser)
  (section : string) (kw : kwargs) (st : state) (p : Project) (st' : state) :
  _getproject cfg section kw st = (Ok p, st') ->
  exists names,
    getlist cfg section "python_interpreters" None = Ok names
    /\ map i_Path (p_PythonInterpreters p)
       = flat_map (fun n => getdirs cfg n "interpreter_paths" [])
           (set_elements String.eqb names).
Proof.
  intro H. destruct (getproject_mapping _ _ _ _ _ _ H)
    as (names & mapping & Hnames & Hkeys & Hvals & -> & _).
  exists names. split; [exact Hnames |]. rewrite <- Hkeys. clear Hkeys.
  induction mapping as [| [n l] mapping IH]; simpl; [reflexivity |].
  rewrite map_app. f_equal.
  - destruct (Hvals n l (or_introl eq_refl)) as (_ & oid & ->).
    apply installations_paths.
  - apply IH. intros n' l' Hin. apply Hvals. right. exact Hin.
Qed.

(** X7. The paths of a Project's virtual environments are the
    [environment_paths] of the sections [python_virtual_environments] names,
    taken once per entry of the list: a section named twice contributes its
    environments twice.  All of them are flagged as virtual environments. *)
Theorem environment_paths_per_occurrence (cfg : ConfigParser)
  (section : string) (kw : kwargs) (st : state) (p : Project) (st' : state) :
  _getproject cfg section kw st = (Ok p, st') ->
  map i_Path (p_VirtualEnvironments p)
  = flat_map (fun n => getdirs cfg n "environment_paths" [])
      (listed_environments cfg section)
  /\ Forall (fun e => i_IsVirtualEnvironment e = true) (p_VirtualEnvironments p)
  /\ Forall (fun i => i_IsVirtualEnvironment i = false) (p_PythonInterpreters p).
Proof.
  intro H. destruct (getproject_mapping _ _ _ _ _ _ H)
    as (names & mapping & _ & _ & Hvals & Hints & _).
  destruct (getproject_inv _ _ _ _ _ _ H)
    as (b & names' & mapping' & st2 & ves & _ & _ & _ & _ & Hves & ->).
  apply mapM_ok in Hves. simpl in *. clear H. split; [| split].
  - induction Hves as [| n l ns ls (s1 & s2 & Hl) _ IH]; simpl; [reflexivity |].
    rewrite map_app, IH. f_equal.
    rewrite (getvirtualenvironment_result _ _ _ _ _ _ Hl).
    apply environments_paths.
  - induction Hves as [| n l ns ls (s1 & s2 & Hl) _ IH]; simpl; [constructor |].
    apply Forall_app. split; [| exact IH].
    rewrite (getvirtualenvironment_result _ _ _ _ _ _ Hl).
    unfold environments. generalize (next_id s1).
    induction (getdirs cfg n "environment_paths" []); simpl; intro oid;
      constructor; auto.
  - rewrite Hints. clear Hints.
    induction mapping as [| [n l] mapping IH]; simpl; [constructor |].
    apply Forall_app. split.
    + destruct (Hvals n l (or_introl eq_refl)) as (_ & oid & ->).
      unfold installations. generalize oid.
      induction (getdirs cfg n "interpreter_paths" []); simpl; intro k;
        constructor; auto.
    + apply IH. intros n' l' Hin. apply Hvals. right. exact Hin.
Qed.

(** X8. A Project's selected interpreter is one of the Project's
    interpreters: [python_interpreter] names one of the listed sections, and
    the selected interpreter is the first installation of that section. *)
Theorem selected_interpreter_is_listed (cfg : ConfigParser)
  (section : string) (kw : kwargs) (st : state) (p : Project) (st' : state)
  (i : Interpreter) :
  _getproject cfg section kw st = (Ok p, st') ->
  p_PythonInterpreter p = Some i ->
  In i (p_PythonInterpreters p)
  /\ exists name,
       get cfg section "python_interpreter" = Ok name
       /\ In name (listed_interpreters cfg section)
       /\ hd_error (getdirs cfg name "interpreter_paths" []) = Some (i_Path i).
Proof.
  intros H Hsel. destruct (getproject_mapping _ _ _ _ _ _ H)
    as (names & mapping & Hnames & _ & Hvals & -> & Hp).
  rewrite Hp in Hsel. unfold select_interpreter, get_fb in Hsel.
  destruct (get cfg section "python_interpreter") as [name | e];
    [| discriminate Hsel].
  destruct (assoc name mapping) as [[| i' l] |] eqn:Hassoc;
    try discriminate Hsel.
  inversion Hsel; subst i'. apply assoc_In in Hassoc. split.
  - apply in_concat. exists (i :: l). split; [| left; reflexivity].
    apply in_map_iff. exists (name, i :: l). auto.
  - exists name. split; [reflexivity |].
    destruct (Hvals _ _ Hassoc) as (Hin & oid & Hl).
    unfold listed_interpreters. rewrite Hnames. split; [exact Hin |].
    rewrite <- (installations_paths cfg name
                  (mkKwargs (kw_or kw (p_VSVersion project0))) oid).
    rewrite <- Hl. reflexivity.
Qed.

End Holdings.

(** ** The selected interpreter *)

Lemma mapM_runs {A B} (f : A -> M B) (l : list A) :
  Forall (fun a => forall st, exists b st', f a st = (Ok b, st')) l ->
  forall st, exists bs st', mapM f l st = (Ok bs, st').
Proof.
  induction 1 as [| a l Ha Hl IH]; simpl; intro st.
  - exists [], st. reflexivity.
  - destruct (Ha st) as (b & st1 & Hb). destruct (IH st1) as (bs & st2 & Hbs).
    exists (b :: bs), st2.
    rewrite (bind_step _ _ _ _ _ Hb), (bind_step _ _ _ _ _ Hbs). reflexivity.
Qed.

Lemma dict_comprehension_runs {V} (f : string -> M V) (keys : list string) :
  Forall (fun n => forall st, exists v st', f n st = (Ok v, st')) keys ->
  forall d st, exists d' st', dict_comprehension f keys d st = (Ok d', st').
Proof.
  induction 1 as [| n keys Hn Hkeys IH]; simpl; intros d st.
  - exists d, st. reflexivity.
  - destruct (Hn st) as (v & st1 & Hv).
    destruct (IH (assoc_set n v d) st1) as (d' & st2 & Hd).
    exists d', st2. rewrite (bind_step _ _ _ _ _ Hv). exact Hd.
Qed.

Lemma assoc_keys {V} (k : string) (d : dict V) :
  match assoc k d with
  | Some v => In (k, v) d
  | None => ~ In k (map fst d)
  end.
Proof.
  induction d as [| [k' v'] d IH]; simpl; [tauto |].
  destruct (String.eqb k k') eqn:Hk.
  - apply String.eqb_eq in Hk. subst k'. auto.
  - apply String.eqb_neq in Hk. destruct (assoc k d).
    + auto.
    + intros [H | H]; [symmetry in H | ]; contradiction.
Qed.

Lemma set_elements_names (names : list string) (n : string) :
  In n (set_elements String.eqb names) <-> In n names.
Proof.
  destruct (set_elements_spec _ String.eqb names) as (_ & Hin & Hrep).
  split; [apply Hin |]. intro H.
  destruct (Hrep n H) as (y & Hy & [-> | Hyn]); [exact Hy |].
  apply String.eqb_eq in Hyn. subst y. exact Hy.
Qed.

Section Selection.

Context {E : Env}.

(** C4. A project section whose fallible lookups succeed and whose listed
    interpreter and environment sections are in the store resolves into a
    Project whatever [python_interpreter] says.  The mapping built from
    [python_interpreters] has the distinct listed names as its keys and, for
    each, the installations found at that section's [interpreter_paths].
    The selected interpreter is the first entry of the list the mapping
    holds for the configured [python_interpreter] name: the installation at
    the first of that section's paths when the name is listed and has a
    path; [None] when the name is not listed, when its section gives no
    path, or when [python_interpreter] is not configured. *)
Theorem selected_interpreter_heads_named_section (cfg : ConfigParser)
  (section : string) (kw : kwargs) (st : state) (b : bool)
  (names : list string) :
  in_config section cfg = true ->
  getboolean cfg section "is_windows_application"
    (p_IsWindowsApplication project0) = Ok b ->
  getlist cfg section "python_interpreters" None = Ok names ->
  Forall (fun n => in_config n cfg = true) names ->
  Forall (fun n => in_config n cfg = true) (listed_environments cfg section) ->
  let kw' := mkKwargs (kw_or kw (p_VSVersion project0)) in
  exists p st' mapping,
    _getproject cfg section kw st = (Ok p, st')
    /\ (forall n, In n (map fst mapping) <-> In n names)
    /\ (forall n l, assoc n mapping = Some l ->
          exists oid, l = installations cfg n kw' oid)
    /\ p_PythonInterpreters p = concat (map snd mapping)
    /\ p_PythonInterpreter p
       = match get cfg section "python_interpreter" with
         | Ok name => match assoc name mapping with
                      | Some l => hd_error l
                      | None => None
                      end
         | Err _ => None
         end
    /\ (forall name path rest,
          get cfg section "python_interpreter" = Ok name ->
          In name names ->
          getdirs cfg name "interpreter_paths" [] = path :: rest ->
          exists oid,
            p_PythonInterpreter p
            = Some (mkInterpreter oid path
                      (get_fb cfg name "description" (fun v => v)
                         (installation_description path))
                      (kw_VSVersion kw') false)
            /\ In (mkInterpreter oid path
                     (get_fb cfg name "description" (fun v => v)
                        (installation_description path))
                     (kw_VSVersion kw') false)
                 (p_PythonInterpreters p))
    /\ (forall name,
          get cfg section "python_interpreter" = Ok name ->
          ~ In name names \/ getdirs cfg name "interpreter_paths" [] = [] ->
          p_PythonInterpreter p = None)
    /\ (forall e,
          get cfg section "python_interpreter" = Err e ->
          p_PythonInterpreter p = None).
Proof.
  intros Hin Hb Hnames Hsecs Henvs kw'.
  destruct (dict_comprehension_runs (fun n => _getinterpreter cfg n kw') names)
    with (d := @nil (string * list Interpreter))
         (st := started KProject section st) as (mapping & st2 & Hmap).
  { eapply Forall_impl; [| exact Hsecs]. intros n Hn s0.
    rewrite (getinterpreter_run cfg n kw' s0 Hn). eauto. }
  destruct (mapM_runs (fun n => _getvirtualenvironment cfg n kw')
              (listed_environments cfg section)) with (st := st2)
    as (ves & st3 & Hves).
  { eapply Forall_impl; [| exact Henvs]. intros n Hn s0.
    rewrite (getvirtualenvironment_run cfg n kw' s0 Hn). eauto. }
  pose proof (getproject_run cfg section kw st b names mapping st2 ves st3
                Hin Hb Hnames Hmap Hves) as Hrun.
  apply dict_comprehension_ok in Hmap. destruct Hmap as (Hkeys & Hvals).
  assert (Hlists : forall n l, assoc n mapping = Some l ->
            exists oid, l = installations cfg n kw' oid).
  { intros n l Hl. apply assoc_In in Hl.
    destruct (Hvals n l Hl) as [[] | (_ & s1 & s2 & Hf)].
    exists (next_id s1). apply (getinterpreter_result _ _ _ _ _ _ Hf). }
  assert (Hsel : p_PythonInterpreter
                   (populated cfg section (fresh_project (next_id st) kw) b
                      mapping ves)
                 = match get cfg section "python_interpreter" with
                   | Ok name => match assoc name mapping with
                                | Some l => hd_error l
                                | None => None
                                end
                   | Err _ => None
                   end).
  { simpl. unfold select_interpreter, get_fb.
    destruct (get cfg section "python_interpreter") as [name | e];
      [| reflexivity].
    destruct (assoc name mapping) as [[| i l] |]; reflexivity. }
  assert (Hkeys' : forall n, In n (map fst mapping) <-> In n names).
  { intro n. rewrite Hkeys. apply set_elements_names. }
  exists (populated cfg section (fresh_project (next_id st) kw) b mapping ves),
    st3, mapping.
  split; [exact Hrun |].
  split; [exact Hkeys' |]. split; [exact Hlists |].
  split; [reflexivity |]. split; [exact Hsel |]. split; [| split].
  - intros name path rest Hname Hlisted Hpaths.
    pose proof (assoc_keys name mapping) as Hk.
    destruct (assoc name mapping) as [l |] eqn:Hassoc.
    2:{ exfalso. apply Hk, Hkeys', Hlisted. }
    destruct (Hlists name l Hassoc) as (oid & Hl).
    unfold installations in Hl. rewrite Hpaths in Hl. simpl in Hl.
    exists oid. rewrite Hsel, Hname, Hassoc, Hl. split; [reflexivity |].
    simpl. apply in_concat. exists l. split.
    + apply in_map_iff. exists (name, l). split; [reflexivity | exact Hk].
    + rewrite Hl. left. reflexivity.
  - intros name Hname Hcase. rewrite Hsel, Hname.
    pose proof (assoc_keys name mapping) as Hk.
    destruct (assoc name mapping) as [l |] eqn:Hassoc; [| reflexivity].
    destruct (Hlists name l Hassoc) as (oid & Hl).
    destruct Hcase as [Hout | Hempty].
    + exfalso. apply Hout, Hkeys'. apply in_map_iff.
      exists (name, l). split; [reflexivity | exact Hk].
    + unfold installations in Hl. rewrite Hempty in Hl. subst l. reflexivity.
  - intros e He. rewrite Hsel, He. reflexivity.
Qed.

End Selection.

(** ** References between sections *)

Lemma Forall2_in_left {A B} (R : A -> B -> Prop) (l : list A) (l' : list B) :
  Forall2 R l l' -> forall a, In a l -> exists b, In b l' /\ R a b.
Proof.
  induction 1 as [| x y l l' Hxy _ IH]; simpl; intros a Ha; [contradiction |].
  destruct Ha as [-> | Ha]; [eauto |].
  destruct (IH a Ha) as (b & Hb & Hab). eauto.
Qed.

(** Every key of a comprehension that returned had its call return. *)
Lemma dict_comprehension_calls {V} (f : string -> M V) (keys : list string) :
  forall d st d' st',
    dict_comprehension f keys d st = (Ok d', st') ->
    forall n, In n keys -> exists v s1 s2, f n s1 = (Ok v, s2).
Proof.
  induction keys as [| k keys IH]; simpl; intros d st d' st' H n Hn.
  - contradiction.
  - apply bind_ok in H. destruct H as (v & st1 & Hv & H).
    destruct Hn as [-> | Hn]; [eauto | eapply IH; eauto].
Qed.

Section References.

Context {E : Env}.

Lemma getproject_ok_in_config cfg section kw st p st' :
  _getproject cfg section kw st = (Ok p, st') ->
  in_config section cfg = true.
Proof.
  intro H. destruct (getproject_inv _ _ _ _ _ _ H)
    as (b & names & mapping & st2 & ves & Hin & _). exact Hin.
Qed.

Lemma getproject_vsversion cfg section kw st p st' :
  _getproject cfg section kw st = (Ok p, st') ->
  p_VSVersion p = kw_or kw (p_VSVersion project0)
  /\ Forall (fun i => i_VSVersion i = p_VSVersion p)
       (p_PythonInterpreters p ++ p_VirtualEnvironments p).
Proof.
  intro H. destruct (getproject_mapping _ _ _ _ _ _ H)
    as (names & mapping & _ & _ & Hvals & Hints & _).
  destruct (getproject_inv _ _ _ _ _ _ H)
    as (b & names' & mapping' & st2 & ves & _ & _ & _ & _ & Hves & ->).
  apply mapM_ok in Hves. simpl in *. clear H.
  split; [reflexivity |]. apply Forall_app. split.
  - rewrite Hints. clear Hints.
    induction mapping as [| [n l] mapping IH]; simpl; [constructor |].
    apply Forall_app. split.
    + destruct (Hvals n l (or_introl eq_refl)) as (_ & oid & ->).
      unfold installations. generalize oid.
      induction (getdirs cfg n "interpreter_paths" []); simpl; intro k;
        constructor; auto.
    + apply IH. intros n' l' Hin. apply Hvals. right. exact Hin.
  - induction Hves as [| n l ns ls (s1 & s2 & Hl) _ IH]; simpl; [constructor |].
    apply Forall_app. split; [| exact IH].
    rewrite (getvirtualenvironment_result _ _ _ _ _ _ Hl).
    unfold environments. generalize (next_id s1).
    induction (getdirs cfg n "environment_paths" []); simpl; intro oid;
      constructor; auto.
Qed.

(** X9. In a constructed suite the VSVersion of a Solution is the VSVersion
    of each of its Projects and of every interpreter and virtual environment
    of these Projects: the version read from the solution section reaches
    every entity below it. *)
Theorem vsversion_flows_down (fs : string -> option ConfigParser)
  (filename : string) (st : state) (suite : PyvsgenSuite) (st' : state) :
  __init__ fs filename st = (Ok suite, st') ->
  Forall
    (fun s =>
       Forall
         (fun p =>
            p_VSVersion p = s_VSVersion s
            /\ Forall (fun i => i_VSVersion i = s_VSVersion s)
                 (p_PythonInterpreters p ++ p_VirtualEnvironments p))
         (s_Projects s))
    (_solutions suite).
Proof.
  intro H. destruct (init_inv _ _ _ _ _ H)
    as (cfg & root & cfg' & _ & _ & _ & _ & Hmap).
  apply mapM_ok in Hmap.
  induction Hmap as [| name s names ss (s1 & s2 & Hs) _ IH];
    constructor; [| exact IH].
  destruct (getsolution_inv _ _ _ _ _ _ Hs) as (v & ps & _ & Hv & Hps & ->).
  simpl. apply mapM_ok in Hps.
  destruct v as [x |]; [| discriminate Hv].
  clear Hs Hv. induction Hps as [| n p ns ps' (t1 & t2 & Hp) _ IHp];
    constructor; [| exact IHp].
  destruct (getproject_vsversion _ _ _ _ _ _ Hp) as (Hvs & Hall).
  change (p_VSVersion p = Some x) in Hvs.
  rewrite Hvs in Hall. split; [exact Hvs | exact Hall].
Qed.

(** X10. The resolver calls of a successful construction are those the
    reference lists ask for, in their order: the project resolver is entered
    for the entries of the solution sections' [projects] lists, the
    interpreter and virtual-environment resolvers for the entries of the
    lists of these project sections, once per entry.  A section no list
    names is never entered. *)
Theorem resolver_calls_follow_references (fs : string -> option ConfigParser)
  (filename : string) (st : state) (suite : PyvsgenSuite) (st' : state) :
  __init__ fs filename st = (Ok suite, st') ->
  exists cfg root cfg',
    fs filename = Some cfg
    /\ get cfg "pyvsgen" "root" = Ok root
    /\ set cfg "pyvsgen" "root" (resolved_root filename root) = Ok cfg'
    /\ resolved KProject (trace st')
       = resolved KProject (trace st)
         ++ flat_map (fun s => getlist_fb cfg' s "projects" [])
              (solution_sections cfg')
    /\ resolved KInterpreter (trace st')
       = resolved KInterpreter (trace st)
         ++ flat_map
              (fun s => flat_map (listed_interpreters cfg')
                          (getlist_fb cfg' s "projects" []))
              (solution_sections cfg')
    /\ resolved KVirtualEnv (trace st')
       = resolved KVirtualEnv (trace st)
         ++ flat_map
              (fun s => flat_map (listed_environments cfg')
                          (getlist_fb cfg' s "projects" []))
              (solution_sections cfg').
Proof.
  intro H. destruct (init_inv _ _ _ _ _ H)
    as (cfg & root & cfg' & Hfs & Hget & _ & Hset & Hmap).
  exists cfg, root, cfg'. split; [exact Hfs |]. split; [exact Hget |].
  split; [exact Hset |]. split; [| split].
  - refine (logs_mapM KProject _ _ _ _ _ _ _ Hmap). intro s.
    eapply logs_eq; [apply logs_getsolution |].
    unfold when_kind; simpl. apply flat_map_singleton.
  - refine (logs_mapM KInterpreter _ _ _ _ _ _ _ Hmap). intro s.
    eapply logs_eq; [apply logs_getsolution |].
    unfold when_kind; simpl. apply flat_map_ext. intro ps.
    apply app_nil_r.
  - refine (logs_mapM KVirtualEnv _ _ _ _ _ _ _ Hmap). intro s.
    eapply logs_eq; [apply logs_getsolution |].
    unfold when_kind; simpl. reflexivity.
Qed.

(** X11. A solution section that lists a project section the configuration
    does not have makes the constructor fail: no suite is returned. *)
Theorem dangling_project_aborts_build (fs : string -> option ConfigParser)
  (filename : string) (cfg : ConfigParser) (section ps : string) (st : state) :
  fs filename = Some cfg ->
  In section (solution_sections cfg) ->
  In ps (getlist_fb cfg section "projects" []) ->
  in_config ps cfg = false ->
  exists e, fst (__init__ fs filename st) = Err e.
Proof.
  intros Hfs Hsec Hps Hmiss.
  destruct (__init__ fs filename st) as [[suite | e] st'] eqn:H;
    [| simpl; eauto].
  exfalso. destruct (init_inv _ _ _ _ _ H)
    as (cfg0 & root & cfg' & Hfs' & _ & _ & Hset & Hmap).
  rewrite Hfs in Hfs'. inversion Hfs'; subst cfg0.
  destruct (get_set _ _ _ _ _ Hset) as (_ & Hsections).
  unfold solution_sections in Hmap. rewrite Hsections in Hmap.
  apply mapM_ok in Hmap.
  destruct (Forall2_in_left _ _ _ Hmap section Hsec)
    as (s & _ & s1 & s2 & Hs).
  destruct (getsolution_inv _ _ _ _ _ _ Hs) as (v & projects & _ & _ & Hp & _).
  apply mapM_ok in Hp.
  assert (Hlist : getlist_fb cfg' section "projects" []
                  = getlist_fb cfg section "projects" []).
  { unfold getlist_fb, get_fb.
    unfold solution_sections in Hsec. apply filter_In in Hsec.
    rewrite (get_set_other cfg cfg' "pyvsgen" "root" _ section "projects"
               eq_refl Hset (solution_section_not_pyvsgen section (proj2 Hsec))).
    reflexivity. }
  rewrite Hlist in Hp.
  destruct (Forall2_in_left _ _ _ Hp ps Hps) as (p & _ & t1 & t2 & Hrun).
  apply getproject_ok_in_config in Hrun.
  unfold in_config, has_section in Hrun, Hmiss.
  rewrite Hsections in Hrun. congruence.
Qed.

(** X12. A project section that lists an interpreter section or a
    virtual-environment section the configuration does not have cannot be
    resolved: [_getproject] raises. *)
Theorem dangling_entity_fails_project (cfg : ConfigParser) (section n : string)
  (kw : kwargs) (st : state) :
  In n (listed_interpreters cfg section)
  \/ In n (listed_environments cfg section) ->
  in_config n cfg = false ->
  exists e st', _getproject cfg section kw st = (Err e, st').
Proof.
  intros Hn Hmiss.
  destruct (_getproject cfg section kw st) as [[p | e] st'] eqn:H; [| eauto].
  exfalso. destruct (getproject_inv _ _ _ _ _ _ H)
    as (b & names & mapping & st2 & ves & _ & _ & Hnames & Hmap & Hves & _).
  destruct Hn as [Hn | Hn].
  - unfold listed_interpreters in Hn. rewrite Hnames in Hn.
    destruct (dict_comprehension_calls _ _ _ _ _ _ Hmap n Hn)
      as (l & s1 & s2 & Hrun).
    apply getinterpreter_ok_in_config in Hrun. congruence.
  - apply mapM_ok in Hves.
    destruct (Forall2_in_left _ _ _ Hves n Hn) as (l & _ & s1 & s2 & Hrun).
    apply getvirtualenvironment_ok_in_config in Hrun. congruence.
Qed.

End References.

(** ** Every entity of a suite is an object of its own *)

Lemma fresh_in_nil lo hi : fresh_in lo hi [].
Proof. split; constructor. Qed.

Lemma fresh_in_widen lo hi lo' hi' ids :
  lo' <= lo -> hi <= hi' -> fresh_in lo hi ids -> fresh_in lo' hi' ids.
Proof.
  intros Hlo Hhi (Hnd & Hb). split; [exact Hnd |].
  eapply Forall_impl; [| exact Hb]. simpl. intros i Hi. lia.
Qed.

Lemma fresh_in_apart lo mid hi l1 l2 :
  fresh_in lo mid l1 -> fresh_in mid hi l2 ->
  forall i, In i l1 -> ~ In i l2.
Proof.
  intros (_ & H1) (_ & H2) i Hi1 Hi2.
  rewrite Forall_forall in H1, H2.
  specialize (H1 i Hi1). specialize (H2 i Hi2). lia.
Qed.

Lemma fresh_in_app lo mid hi l1 l2 :
  lo <= mid -> mid <= hi ->
  fresh_in lo mid l1 -> fresh_in mid hi l2 -> fresh_in lo hi (l1 ++ l2).
Proof.
  intros Hlo Hhi H1 H2. split.
  - apply NoDup_app; [apply H1 | apply H2 |].
    apply (fresh_in_apart lo mid hi); assumption.
  - apply Forall_app. split.
    + apply (fresh_in_widen lo mid lo hi) in H1; [apply H1 | lia | lia].
    + apply (fresh_in_widen mid hi lo hi) in H2; [apply H2 | lia | lia].
Qed.

Lemma fresh_in_cons n hi ids :
  fresh_in (S n) hi ids -> n < hi -> fresh_in n hi (n :: ids).
Proof.
  intros (Hnd & Hb) Hn. split.
  - constructor; [| exact Hnd]. intro Hin.
    rewrite Forall_forall in Hb. specialize (Hb n Hin). lia.
  - constructor; [lia |].
    eapply Forall_impl; [| exact Hb]. simpl. intros i Hi. lia.
Qed.

Lemma fresh_in_seq n len : fresh_in n (n + len) (seq n len).
Proof.
  split; [apply seq_NoDup |]. apply Forall_forall. intros i Hi.
  apply in_seq in Hi. lia.
Qed.

Lemma map_flat_map {A B C} (f : B -> C) (g : A -> list B) (l : list A) :
  map f (flat_map g l) = flat_map (fun a => map f (g a)) l.
Proof.
  induction l as [| a l IH]; simpl; [reflexivity |].
  now rewrite map_app, IH.
Qed.

(** A loop whose calls each take their identities from the allocator
    returns entities with identities of their own. *)
Lemma mapM_fresh {A B} (f : A -> M B) (ids : B -> list nat) :
  (forall a st b st',
      f a st = (Ok b, st') ->
      fresh_in (next_id st) (next_id st') (ids b)
      /\ next_id st <= next_id st') ->
  forall l st bs st',
    mapM f l st = (Ok bs, st') ->
    fresh_in (next_id st) (next_id st') (flat_map ids bs)
    /\ next_id st <= next_id st'.
Proof.
  intros Hf l. induction l as [| a l IH]; simpl; intros st bs st' H.
  - inversion H; subst. split; [apply fresh_in_nil | lia].
  - apply bind_ok in H. destruct H as (b & st1 & Hb & H).
    apply bind_ok in H. destruct H as (bs' & st2 & Hbs & H).
    inversion H; subst; clear H.
    destruct (Hf _ _ _ _ Hb) as (H1 & Hle1).
    destruct (IH _ _ _ Hbs) as (H2 & Hle2). simpl.
    split; [| lia]. apply (fresh_in_app _ (next_id st1)); assumption.
Qed.

Lemma NoDup_app_apart {A} (l1 l2 : list A) :
  NoDup (l1 ++ l2) -> forall x, In x l1 -> ~ In x l2.
Proof.
  induction l1 as [| a l1 IH]; simpl; intros H x Hx; [contradiction |].
  apply NoDup_cons_iff in H. destruct H as (Ha & H).
  destruct Hx as [-> | Hx]; [| exact (IH H x Hx)].
  intro Hx2. apply Ha, in_or_app. auto.
Qed.

Lemma in_values_assoc_set {A} (n : string) (v : list A) (d : dict (list A)) x :
  In x (concat (map snd (assoc_set n v d))) ->
  In x (concat (map snd d)) \/ In x v.
Proof.
  induction d as [| [k w] d IH]; simpl.
  - rewrite app_nil_r. auto.
  - destruct (String.eqb n k); simpl; rewrite !in_app_iff.
    + intros [H | H]; auto.
    + intros [H | H]; [auto |]. destruct (IH H); auto.
Qed.

(** Storing entities with new identities under a key keeps the identities
    in the mapping apart, whether the key is new or replaces an entry. *)
Lemma assoc_set_fresh {A} (f : A -> nat) (n : string) (v : list A)
  (d : dict (list A)) lo mid hi :
  lo <= mid -> mid <= hi ->
  fresh_in lo mid (map f (concat (map snd d))) ->
  fresh_in mid hi (map f v) ->
  fresh_in lo hi (map f (concat (map snd (assoc_set n v d)))).
Proof.
  intros Hlo Hhi Hd Hv. split.
  - destruct Hd as (Hd & Hbd). destruct Hv as (Hv & Hbv).
    rewrite Forall_forall in Hbd, Hbv.
    induction d as [| [k w] d IH]; simpl in *.
    + rewrite app_nil_r. exact Hv.
    + rewrite map_app in Hd, Hbd.
      assert (Hrest : NoDup (map f (concat (map snd d))))
        by (eapply NoDup_app_remove_l; exact Hd).
      assert (Hbrest : forall x, In x (map f (concat (map snd d))) ->
                                 lo <= x < mid)
        by (intros x Hx; apply Hbd, in_or_app; auto).
      destruct (String.eqb n k); simpl; rewrite map_app; apply NoDup_app.
      * exact Hv.
      * exact Hrest.
      * intros i Hi1 Hi2. specialize (Hbv i Hi1).
        specialize (Hbrest i Hi2). lia.
      * eapply NoDup_app_remove_r; exact Hd.
      * apply IH; assumption.
      * intros i Hi1 Hi2. apply in_map_iff in Hi2.
        destruct Hi2 as (x & <- & Hx).
        apply in_values_assoc_set in Hx. destruct Hx as [Hx | Hx].
        -- apply (NoDup_app_apart _ _ Hd (f x) Hi1). apply in_map. exact Hx.
        -- assert (Hlt : lo <= f x < mid) by (apply Hbd, in_or_app; auto).
           assert (Hge : mid <= f x < hi) by (apply Hbv, in_map; exact Hx).
           lia.
  - apply Forall_forall. intros i Hi. apply in_map_iff in Hi.
    destruct Hi as (x & <- & Hx). apply in_values_assoc_set in Hx.
    destruct Hd as (_ & Hbd). destruct Hv as (_ & Hbv).
    rewrite Forall_forall in Hbd, Hbv. destruct Hx as [Hx | Hx].
    + specialize (Hbd (f x) (in_map f _ _ Hx)). lia.
    + specialize (Hbv (f x) (in_map f _ _ Hx)). lia.
Qed.

Lemma flat_map_flat_map {A B C} (g : B -> list C) (h : A -> list B)
  (l : list A) :
  flat_map g (flat_map h l) = flat_map (fun a => flat_map g (h a)) l.
Proof.
  induction l as [| a l IH]; simpl; [reflexivity |].
  now rewrite flat_map_app, IH.
Qed.

Section Objects.

Context {E : Env}.

Lemma getinterpreter_fresh cfg section kw st l st' :
  _getinterpreter cfg section kw st = (Ok l, st') ->
  fresh_in (next_id st) (next_id st') (map i_id l)
  /\ next_id st <= next_id st'.
Proof.
  intro H. pose proof (getinterpreter_ok_in_config _ _ _ _ _ _ H) as Hin.
  rewrite (getinterpreter_run cfg section kw st Hin) in H.
  inversion H; subst; clear H. simpl. unfold installations.
  rewrite numbered_ids by reflexivity.
  split; [apply fresh_in_seq | lia].
Qed.

Lemma getvirtualenvironment_fresh cfg section kw st l st' :
  _getvirtualenvironment cfg section kw st = (Ok l, st') ->
  fresh_in (next_id st) (next_id st') (map i_id l)
  /\ next_id st <= next_id st'.
Proof.
  intro H. pose proof (getvirtualenvironment_ok_in_config _ _ _ _ _ _ H) as Hin.
  rewrite (getvirtualenvironment_run cfg section kw st Hin) in H.
  inversion H; subst; clear H. simpl. unfold environments.
  rewrite numbered_ids by reflexivity.
  split; [apply fresh_in_seq | lia].
Qed.

Lemma mapping_fresh cfg kw (keys : list string) :
  forall d st d' st' lo,
    lo <= next_id st ->
    fresh_in lo (next_id st) (map i_id (concat (map snd d))) ->
    dict_comprehension (fun n => _getinterpreter cfg n kw) keys d st
    = (Ok d', st') ->
    fresh_in lo (next_id st') (map i_id (concat (map snd d')))
    /\ next_id st <= next_id st'.
Proof.
  induction keys as [| n keys IH]; simpl; intros d st d' st' lo Hlo Hd H.
  - inversion H; subst. split; [exact Hd | lia].
  - apply bind_ok in H. destruct H as (v & st1 & Hv & H).
    destruct (getinterpreter_fresh _ _ _ _ _ _ Hv) as (Hfresh & Hle).
    destruct (IH (assoc_set n v d) st1 d' st' lo) as (H1 & H2);
      [lia | | exact H | split; [exact H1 | lia]].
    apply (assoc_set_fresh i_id n v d lo (next_id st)); assumption.
Qed.

(** A resolved Project and the entities it holds have identities of their
    own, all taken while the resolver ran. *)
Lemma getproject_fresh cfg section kw st p st' :
  _getproject cfg section kw st = (Ok p, st') ->
  fresh_in (next_id st) (next_id st') (project_ids p)
  /\ next_id st <= next_id st'.
Proof.
  intro H. destruct (getproject_inv _ _ _ _ _ _ H)
    as (b & names & mapping & st2 & ves & _ & _ & _ & Hmap & Hves & ->).
  unfold interpreter_mapping in Hmap.
  apply (mapping_fresh cfg _ names [] _ mapping st2 (S (next_id st))) in Hmap;
    [| simpl; lia | apply fresh_in_nil].
  destruct Hmap as (Hm & Hle1). simpl in Hle1.
  apply (mapM_fresh _ (map i_id)
           (fun n => getvirtualenvironment_fresh cfg n _)) in Hves.
  destruct Hves as (Hv & Hle2).
  unfold project_ids, populated, dict_values. simpl.
  rewrite <- map_flat_map, flat_map_concat_map, map_id in Hv.
  split; [| lia]. apply fresh_in_cons; [| lia].
  apply (fresh_in_app _ (next_id st2)); [lia | lia | exact Hm | exact Hv].
Qed.

(** The same for any part [g] of the Projects of a resolved Solution. *)
Lemma getsolution_fresh (g : Project -> list nat) cfg section kw st s st' :
  (forall n kw' t p t',
      _getproject cfg n kw' t = (Ok p, t') ->
      fresh_in (next_id t) (next_id t') (g p) /\ next_id t <= next_id t') ->
  _getsolution cfg section kw st = (Ok s, st') ->
  s_id s = next_id st
  /\ fresh_in (S (next_id st)) (next_id st') (flat_map g (s_Projects s))
  /\ S (next_id st) <= next_id st'.
Proof.
  intros Hg H. destruct (getsolution_inv _ _ _ _ _ _ H)
    as (v & projects & _ & _ & Hmap & ->). simpl.
  apply (mapM_fresh _ g (fun n => Hg n (mkKwargs v))) in Hmap.
  simpl in Hmap. split; [reflexivity | exact Hmap].
Qed.

Lemma fresh_in_tail lo hi n l1 l2 :
  fresh_in lo hi (n :: l1 ++ l2) -> fresh_in lo hi l1.
Proof.
  intros (Hnd & Hb). inversion Hnd; subst. inversion Hb; subst. split.
  - eapply NoDup_app_remove_r. eassumption.
  - apply Forall_app in H4. apply H4.
Qed.

(** X13. No two entities of a constructed suite are the same object: the
    identities of its Solutions, of their Projects and of the interpreters
    and virtual environments these hold are pairwise different, and all of
    them were handed out during the construction.  Two references to one
    section give two objects. *)
Theorem constructed_entities_are_distinct_objects
  (fs : string -> option ConfigParser) (filename : string) (st : state)
  (suite : PyvsgenSuite) (st' : state) :
  __init__ fs filename st = (Ok suite, st') ->
  NoDup (suite_ids suite)
  /\ Forall (fun i => next_id st <= i < next_id st') (suite_ids suite).
Proof.
  intro H. destruct (init_inv _ _ _ _ _ H)
    as (cfg & root & cfg' & _ & _ & _ & _ & Hmap).
  apply (mapM_fresh _ solution_ids) in Hmap; [apply Hmap |].
  intros name t s t' Hs.
  destruct (getsolution_fresh project_ids _ _ _ _ _ _
              (fun n kw' => getproject_fresh cfg' n kw') Hs)
    as (Hid & Hps & Hle).
  unfold solution_ids. rewrite Hid.
  split; [apply fresh_in_cons; [exact Hps | lia] | lia].
Qed.

(** The interpreters of all Projects of a constructed suite are different
    objects. *)
Lemma suite_interpreters_are_distinct_objects fs filename st suite st' :
  __init__ fs filename st = (Ok suite, st') ->
  NoDup (map i_id
           (flat_map p_PythonInterpreters (all_projects (_solutions suite)))).
Proof.
  intro H. destruct (init_inv _ _ _ _ _ H)
    as (cfg & root & cfg' & _ & _ & _ & _ & Hmap).
  set (g := fun p => map i_id (p_PythonInterpreters p)).
  apply (mapM_fresh _ (fun s => flat_map g (s_Projects s))) in Hmap.
  - destruct Hmap as ((Hnd & _) & _).
    unfold all_projects. rewrite map_flat_map, flat_map_flat_map.
    exact Hnd.
  - intros name t s t' Hs.
    assert (Hg : forall n kw' t p t',
               _getproject cfg' n kw' t = (Ok p, t') ->
               fresh_in (next_id t) (next_id t') (g p)
               /\ next_id t <= next_id t').
    { intros n kw' u p u' Hp.
      destruct (getproject_fresh _ _ _ _ _ _ Hp) as (Hf & Hle).
      split; [| exact Hle]. unfold project_ids in Hf.
      apply fresh_in_tail in Hf. exact Hf. }
    destruct (getsolution_fresh g _ _ _ _ _ _ Hg Hs) as (_ & Hps & Hle).
    split; [| lia].
    apply (fresh_in_widen (S (next_id t)) (next_id t')); [lia | lia | exact Hps].
Qed.

(** X14. When the entity classes keep an equality that only one and the
    same object satisfies (Python's default), the sets of [write] collapse
    nothing for a constructed suite: the project phase receives every
    Project of every Solution and the registration phase every interpreter
    of every Project, one entry per reference to their sections. *)
Theorem default_equality_collapses_nothing
  (fs : string -> option ConfigParser) (filename : string) (st : state)
  (suite : PyvsgenSuite) (st' : state) :
  (forall a b, project_eq a b = true -> p_id a = p_id b) ->
  (forall a b, interpreter_eq a b = true -> i_id a = i_id b) ->
  __init__ fs filename st = (Ok suite, st') ->
  Permutation (projects_batch (write suite)) (all_projects (_solutions suite))
  /\ Permutation (interpreters_batch (write suite))
       (flat_map p_PythonInterpreters (all_projects (_solutions suite))).
Proof.
  intros Hp Hi H.
  pose proof (identity_equality_keeps_every_project _ _ _ _ _ Hp H) as Hprojects.
  split; [exact Hprojects |].
  pose proof (suite_interpreters_are_distinct_objects _ _ _ _ _ H) as Hnd.
  assert (Hflat : Permutation
                    (flat_map p_PythonInterpreters (projects_batch (write suite)))
                    (flat_map p_PythonInterpreters
                       (all_projects (_solutions suite))))
    by (apply Permutation_flat_map, Hprojects).
  change (interpreters_batch (write suite))
    with (interpreter_set
            (flat_map p_PythonInterpreters (projects_batch (write suite)))).
  unfold interpreter_set.
  eapply perm_trans; [apply interpreter_set_order_perm |].
  unfold set_elements.
  rewrite (set_keeps_distinct interpreter_eq i_id Hi _ []).
  - exact Hflat.
  - simpl. apply (Permutation_NoDup
                    (Permutation_map i_id (Permutation_sym Hflat))).
    exact Hnd.
Qed.

End Objects.

(** ** Order and content of the batches *)

Lemma string_leb_refl (s : string) : String.leb s s = true.
Proof.
  unfold String.leb. pose proof (String.compare_antisym s s) as H.
  destruct (String.compare s s); try reflexivity. discriminate H.
Qed.

Lemma insert_sorted_filter {A} (key : A -> string) (k : string) (x : A)
  (l : list A) :
  filter (fun a => String.eqb (key a) k) (insert_sorted key x l)
  = filter (fun a => String.eqb (key a) k) (x :: l).
Proof.
  induction l as [| y l IH]; simpl; [reflexivity |].
  destruct (String.leb (key x) (key y)) eqn:Hxy; [reflexivity |].
  simpl in *. rewrite IH.
  destruct (String.eqb (key x) k) eqn:Hx; [| reflexivity].
  destruct (String.eqb (key y) k) eqn:Hy; [| reflexivity].
  apply String.eqb_eq in Hx, Hy. rewrite Hx, Hy, string_leb_refl in Hxy.
  discriminate Hxy.
Qed.

Lemma sorted_filter {A} (key : A -> string) (k : string) (l : list A) :
  filter (fun a => String.eqb (key a) k) (sorted key l)
  = filter (fun a => String.eqb (key a) k) l.
Proof.
  induction l as [| x l IH]; simpl; [reflexivity |].
  rewrite insert_sorted_filter. simpl. rewrite IH. reflexivity.
Qed.

Lemma prefix_split (n s : string) :
  String.prefix n s = true -> exists b, s = (n ++ b)%string.
Proof.
  revert s. induction n as [| c n IH]; intros s H.
  - exists s. reflexivity.
  - destruct s as [| c' s]; simpl in H; [discriminate H |].
    destruct (ascii_dec c c') as [<- |]; [| discriminate H].
    destruct (IH s H) as (b & ->). exists b. reflexivity.
Qed.

Lemma contains_split (n s : string) :
  contains n s = true -> exists a b, s = (a ++ n ++ b)%string.
Proof.
  induction s as [| c s IH]; unfold contains; fold contains; intro H.
  - rewrite orb_false_r in H. apply prefix_split in H.
    destruct H as (b & ->). exists EmptyString, b. reflexivity.
  - apply orb_true_iff in H. destruct H as [H | H].
    + apply prefix_split in H. destruct H as (b & ->).
      exists EmptyString, b. reflexivity.
    + destruct (IH H) as (a & b & ->). exists (String c a), b. reflexivity.
Qed.

Section Batching.

Context {E : Env}.

(** C2 (amended). The Solutions batch of [write] is the suite's Solutions
    in ascending Name order, Solutions of the same Name keeping the order
    the suite holds them in.  The Interpreters batch is not sorted: it is
    the set of the interpreters of the Projects of the project batch, handed
    over in the order the set is iterated, which is the order of first
    insertion when the set iterates in insertion order. *)
Theorem solutions_sorted_interpreters_as_set (suite : PyvsgenSuite) :
  StronglySorted (key_le s_Name) (solutions_batch (write suite))
  /\ ascending (map s_Name (solutions_batch (write suite))) = true
  /\ Permutation (solutions_batch (write suite)) (_solutions suite)
  /\ (forall name,
        filter (fun s => String.eqb (s_Name s) name)
          (solutions_batch (write suite))
        = filter (fun s => String.eqb (s_Name s) name) (_solutions suite))
  /\ Permutation (interpreters_batch (write suite))
       (set_elements interpreter_eq
          (flat_map p_PythonInterpreters (projects_batch (write suite))))
  /\ ((forall l, interpreter_set_order l = l) ->
      interpreters_batch (write suite)
      = set_elements interpreter_eq
          (flat_map p_PythonInterpreters (projects_batch (write suite)))).
Proof.
  split; [apply sorted_strongly |].
  split; [apply ascending_strongly, sorted_strongly |].
  split; [apply sorted_perm |].
  split; [intro name; apply sorted_filter |].
  change (interpreters_batch (write suite))
    with (interpreter_set_order
            (set_elements interpreter_eq
               (flat_map p_PythonInterpreters (projects_batch (write suite))))).
  split; [apply interpreter_set_order_perm |].
  intro Hord. apply Hord.
Qed.

(** X15. [write] keeps Solutions of the same Name in the order the suite
    holds them: the sort is stable. *)
Theorem equal_names_keep_their_order (suite : PyvsgenSuite) (name : string) :
  filter (fun s => String.eqb (s_Name s) name) (solutions_batch (write suite))
  = filter (fun s => String.eqb (s_Name s) name) (_solutions suite).
Proof. unfold write; simpl. apply sorted_filter. Qed.

(** X16. The registration phase draws on the interpreters of the Projects
    of the project batch and on nothing else: every entry of the
    interpreter batch is an interpreter of a Project of the project batch,
    every such interpreter is in the batch or has a representative there
    that the class's equality takes for equal, and no two entries are equal
    for that equality.  Virtual environments are not handed to it. *)
Theorem registered_interpreters_of_written_projects (suite : PyvsgenSuite) :
  (forall i, In i (interpreters_batch (write suite)) ->
             exists p, In p (projects_batch (write suite))
                       /\ In i (p_PythonInterpreters p))
  /\ (forall p i, In p (projects_batch (write suite)) ->
                  In i (p_PythonInterpreters p) ->
                  exists j, In j (interpreters_batch (write suite))
                            /\ (j = i \/ interpreter_eq j i = true))
  /\ (exists held,
        Permutation (interpreters_batch (write suite)) held
        /\ ForallOrdPairs (distinct interpreter_eq) held).
Proof.
  change (interpreters_batch (write suite))
    with (interpreter_set
            (flat_map p_PythonInterpreters (projects_batch (write suite)))).
  unfold interpreter_set.
  set (l := flat_map p_PythonInterpreters (projects_batch (write suite))).
  destruct (set_elements_spec _ interpreter_eq l) as (Hd & Hin & Hrep).
  pose proof (interpreter_set_order_perm (set_elements interpreter_eq l)) as Hord.
  split; [| split].
  - intros i Hi. apply (Permutation_in _ Hord), Hin in Hi.
    unfold l in Hi. apply in_flat_map in Hi. exact Hi.
  - intros p i Hp Hi.
    destruct (Hrep i) as (j & Hj & Hji).
    { unfold l. apply in_flat_map. eauto. }
    exists j. split; [| exact Hji].
    apply (Permutation_in _ (Permutation_sym Hord)). exact Hj.
  - exists (set_elements interpreter_eq l). split; assumption.
Qed.

(** X17. The constructor resolves a section as a Solution exactly when its
    name holds [pyvsgen.solution] somewhere: at its start, in its middle or
    at its end. *)
Theorem solution_sections_hold_the_marker (cfg : ConfigParser) (name : string) :
  In name (solution_sections cfg) <->
  In name (sections cfg)
  /\ exists a b, name = (a ++ "pyvsgen.solution" ++ b)%string.
Proof.
  unfold solution_sections. rewrite filter_In. split.
  - intros (Hin & Hc). split; [exact Hin | apply contains_split, Hc].
  - intros (Hin & a & b & ->). split; [exact Hin | apply contains_app].
Qed.

(** X18. The demo's [main] hands its commands the batches [write] hands
    them for a suite that holds the demo's one Solution, and returns 0. *)
Theorem main_runs_the_batches_of_write (demo_solution : Solution) :
  main demo_solution = (write (mkSuite [demo_solution]), 0%Z).
Proof. reflexivity. Qed.

Lemma append_each (l sys_path : list string) :
  fold_left (fun path_list path => path_list ++ [path]) l sys_path
  = sys_path ++ l.
Proof.
  revert sys_path. induction l as [| a l IH]; simpl; intro sys_path.
  - now rewrite app_nil_r.
  - rewrite IH, <- app_assoc. reflexivity.
Qed.

Lemma not_in_path_spec (sys_path : list string) (p : string) :
  not_in_path sys_path p = true <-> ~ In p sys_path.
Proof.
  unfold not_in_path. rewrite negb_true_iff. split.
  - intros H Hin.
    assert (existsb (String.eqb p) sys_path = true)
      by (apply existsb_exists; exists p; split;
          [exact Hin | apply String.eqb_refl]).
    congruence.
  - intro H. destruct (existsb (String.eqb p) sys_path) eqn:Hex;
      [| reflexivity].
    apply existsb_exists in Hex. destruct Hex as (q & Hq & Hpq).
    apply String.eqb_eq in Hpq. subst q. contradiction.
Qed.

(** X19. The script block only appends to [sys.path]: the entries it found
    stay where they were, at most two are added, and what is added is the
    normalized form of each candidate directory that is not itself an entry
    of [sys.path].  The membership test looks at the candidate as joined,
    not at its normalized form. *)
Theorem sys_path_is_only_extended (sys_path : list string) (filePath : string) :
  exists added,
    extend_sys_path sys_path filePath = sys_path ++ added
    /\ length added <= 2
    /\ (forall c, In c (path_candidates filePath) -> ~ In c sys_path ->
                  In (normpath c) added)
    /\ (forall q, In q added ->
                  exists c, In c (path_candidates filePath)
                            /\ ~ In c sys_path /\ q = normpath c).
Proof.
  exists (map normpath
            (filter (not_in_path sys_path) (path_candidates filePath))).
  split; [apply append_each |]. split; [| split].
  - rewrite length_map. unfold path_candidates. simpl.
    destruct (not_in_path sys_path _); destruct (not_in_path sys_path _);
      simpl; lia.
  - intros c Hc Hnot. apply in_map, filter_In. split; [exact Hc |].
    apply not_in_path_spec. exact Hnot.
  - intros q Hq. apply in_map_iff in Hq. destruct Hq as (c & <- & Hc).
    apply filter_In in Hc. destruct Hc as (Hc & Hnot).
    exists c. split; [exact Hc |]. split; [| reflexivity].
    apply not_in_path_spec. exact Hnot.
Qed.

End Batching.

(** ** Where a failing construction stops *)

Lemma keeps_ret k {A} (a : A) : keeps k (ret a).
Proof. intros st r st' H. inversion H. reflexivity. Qed.

Lemma keeps_raise k {A} (e : error) : keeps k (@raise A e).
Proof. intros st r st' H. inversion H. reflexivity. Qed.

Lemma keeps_lift k {A} (r : result A) : keeps k (lift r).
Proof. intros st r' st' H. inversion H. reflexivity. Qed.

Lemma keeps_new_object k k' : keeps k (new_object k').
Proof. intros st r st' H. inversion H. reflexivity. Qed.

Lemma keeps_log k k' s : kind_eqb k k' = false -> keeps k (log (Resolve k' s)).
Proof. intros Hk st r st' H. inversion H; simpl. rewrite Hk. reflexivity. Qed.

Lemma keeps_bind k {A B} (m : M A) (f : A -> M B) :
  keeps k m -> (forall a, keeps k (f a)) -> keeps k (bind m f).
Proof.
  intros Hm Hf st r st' H. unfold bind in H.
  destruct (m st) as [[a | e] st1] eqn:Hrun.
  - rewrite (Hf a _ _ _ H). apply (Hm _ _ _ Hrun).
  - inversion H; subst. apply (Hm _ _ _ Hrun).
Qed.

Lemma keeps_mapM k {A B} (f : A -> M B) (l : list A) :
  (forall a, keeps k (f a)) -> keeps k (mapM f l).
Proof.
  intro Hf. induction l as [| a l IH]; simpl.
  - apply keeps_ret.
  - apply keeps_bind; [apply Hf |]. intro b.
    apply keeps_bind; [exact IH |]. intro bs. apply keeps_ret.
Qed.

Lemma keeps_dict_comprehension k {V} (f : string -> M V) (keys : list string) :
  (forall n, keeps k (f n)) -> forall d, keeps k (dict_comprehension f keys d).
Proof.
  intro Hf. induction keys as [| n keys IH]; simpl; intro d.
  - apply keeps_ret.
  - apply keeps_bind; [apply Hf |]. intro v. apply IH.
Qed.

Section Stopping.

Context {E : Env}.

Lemma keeps_solution_getproject cfg section kw :
  keeps KSolution (_getproject cfg section kw).
Proof.
  unfold _getproject.
  apply keeps_bind; [apply keeps_log; reflexivity |]. intros _.
  destruct (negb (in_config section cfg)); [apply keeps_raise |].
  apply keeps_bind.
  { unfold PyvsgenProject.
    apply keeps_bind; [apply keeps_new_object | intro; apply keeps_ret]. }
  intro p. apply keeps_bind; [apply keeps_lift |]. intro b.
  apply keeps_bind; [apply keeps_lift |]. intro names.
  apply keeps_bind.
  { unfold interpreter_mapping. apply keeps_dict_comprehension. intro n.
    unfold _getinterpreter.
    apply keeps_bind; [apply keeps_log; reflexivity |]. intros _.
    destruct (negb (in_config n cfg)); [apply keeps_raise |].
    apply keeps_bind; [| intro; apply keeps_ret].
    destruct (getdirs cfg n "interpreter_paths" []); [apply keeps_ret |].
    apply keeps_mapM. intro path. unfold from_python_installation.
    apply keeps_bind; [apply keeps_new_object | intro; apply keeps_ret]. }
  intro mapping. apply keeps_bind; [| intro; apply keeps_ret].
  apply keeps_mapM. intro n. unfold _getvirtualenvironment.
  apply keeps_bind; [apply keeps_log; reflexivity |]. intros _.
  destruct (negb (in_config n cfg)); [apply keeps_raise |].
  apply keeps_bind; [| intro; apply keeps_ret].
  destruct (getdirs cfg n "environment_paths" []); [apply keeps_ret |].
  apply keeps_mapM. intro path. unfold from_virtual_environment.
  apply keeps_bind; [apply keeps_new_object | intro; apply keeps_ret].
Qed.

(** Whether it returns or raises, the solution resolver was entered for its
    own section and for no other. *)
Lemma getsolution_enters_itself cfg section kw st r st' :
  _getsolution cfg section kw st = (r, st') ->
  resolved KSolution (trace st') = resolved KSolution (trace st) ++ [section].
Proof.
  unfold _getsolution. intro H. unfold bind at 1 in H. simpl in H.
  match type of H with
  | ?m ?s = _ =>
      assert (Hk : keeps KSolution m); [| exact (Hk _ _ _ H)]
  end.
  destruct (negb (in_config section cfg)); [apply keeps_raise |].
  apply keeps_bind.
  { unfold PyvsgenSolution.
    apply keeps_bind; [apply keeps_new_object | intro; apply keeps_ret]. }
  intro s. apply keeps_bind; [apply keeps_lift |]. intro v.
  destruct (py_not v); [apply keeps_raise |].
  apply keeps_bind; [| intro; apply keeps_ret].
  apply keeps_mapM. intro ps. apply keeps_solution_getproject.
Qed.

(** X21. The constructor stops at the first solution section that cannot
    be resolved: the error it raises is that section's error, and the
    solution resolver has been entered for the sections up to and including
    it, never for a later one. *)
Theorem construction_stops_at_first_failure
  (fs : string -> option ConfigParser) (filename : string)
  (cfg : ConfigParser) (root : string) (cfg' : ConfigParser)
  (before : list string) (section : string) (after : list string)
  (solutions : list Solution) (e : error) (st st1 st2 : state) :
  fs filename = Some cfg ->
  get cfg "pyvsgen" "root" = Ok root ->
  root <> EmptyString ->
  set cfg "pyvsgen" "root" (resolved_root filename root) = Ok cfg' ->
  solution_sections cfg' = before ++ section :: after ->
  mapM (fun s => _getsolution cfg' s no_kwargs) before st = (Ok solutions, st1) ->
  _getsolution cfg' section no_kwargs st1 = (Err e, st2) ->
  __init__ fs filename st = (Err e, st2)
  /\ resolved KSolution (trace st2)
     = resolved KSolution (trace st) ++ before ++ [section].
Proof.
  intros Hfs Hget Hne Hset Hsplit Hbefore Hfail. split.
  - unfold __init__, get_fb. rewrite Hfs, Hget.
    destruct root as [| c r]; [contradiction |].
    rewrite Hset. rewrite bind_run. unfold lift. cbv beta iota.
    rewrite Hsplit. apply bind_err.
    apply (mapM_app_err _ _ _ after _ _ _ _ _ Hbefore Hfail).
  - rewrite (getsolution_enters_itself _ _ _ _ _ _ Hfail).
    rewrite (logs_mapM KSolution _ (fun a => [a]) before
               (fun a => logs_solution_getsolution cfg' a no_kwargs)
               _ _ _ Hbefore).
    rewrite flat_map_singleton, app_assoc. reflexivity.
Qed.

End Stopping.

(** * The model on the reference configurations *)

Import Reference.

(** Two solutions list project section [pyvsgen.project.p]; with entity
    classes that keep Python's default equality the project batch holds two
    Projects with the same FileName. *)
Lemma same_project_file_written_twice :
  exists suite st',
    @__init__ ordered_env demo_fs "/etc/demo.cfg" state0 = (Ok suite, st')
    /\ map p_FileName (projects_batch (@write ordered_env suite))
       = ["/etc/work/p.pyproj"; "/etc/work/p.pyproj"; "/etc/work/q.pyproj"]
    /\ ~ NoDup (map p_FileName (projects_batch (@write ordered_env suite))).
Proof.
  exists (fst (run_init ordered_env demo_fs "/etc/demo.cfg")),
         (snd (run_init ordered_env demo_fs "/etc/demo.cfg")).
  split; [vm_compute; reflexivity |].
  assert (Hnames :
            map p_FileName
              (projects_batch
                 (@write ordered_env
                    (fst (run_init ordered_env demo_fs "/etc/demo.cfg"))))
            = ["/etc/work/p.pyproj"; "/etc/work/p.pyproj"; "/etc/work/q.pyproj"])
    by (vm_compute; reflexivity).
  split; [exact Hnames |].
  rewrite Hnames. intro H. inversion H as [| x l Hnotin _]; subst.
  apply Hnotin. left. reflexivity.
Qed.

(** With a set that iterates in the reverse of the insertion order, the
    project batch of the demo suite is not in ascending Name order: the sort
    of line 170 is lost in the set. *)
Lemma projects_batch_not_in_name_order :
  exists suite st',
    @__init__ reversed_env demo_fs "/etc/demo.cfg" state0 = (Ok suite, st')
    /\ map p_Name (projects_batch (@write reversed_env suite)) = ["q"; "p"; "p"]
    /\ ascending (map p_Name (projects_batch (@write reversed_env suite)))
       = false.
Proof.
  exists (fst (run_init reversed_env demo_fs "/etc/demo.cfg")),
         (snd (run_init reversed_env demo_fs "/etc/demo.cfg")).
  split; [vm_compute; reflexivity |].
  split; vm_compute; reflexivity.
Qed.

(** C2, counterexample.  The interpreters of a project that lists sections
    [b], [c], [a] reach the registration phase as the set holds them, not in
    the order of their descriptions or paths: [B; C; A] when the set
    iterates in insertion order, [A; C; B] when it iterates in reverse. *)
Lemma interpreters_batch_not_in_name_order :
  map i_Description
    (interpreters_batch
       (@write ordered_env
          (fst (run_init ordered_env unsorted_fs "/etc/unsorted.cfg"))))
  = ["B"; "C"; "A"]
  /\ ascending
       (map i_Description
          (interpreters_batch
             (@write ordered_env
                (fst (run_init ordered_env unsorted_fs "/etc/unsorted.cfg")))))
     = false
  /\ ascending
       (map i_Path
          (interpreters_batch
             (@write ordered_env
                (fst (run_init ordered_env unsorted_fs "/etc/unsorted.cfg")))))
     = false
  /\ map i_Description
       (interpreters_batch
          (@write reversed_env
             (fst (run_init reversed_env unsorted_fs "/etc/unsorted.cfg"))))
     = ["A"; "C"; "B"]
  /\ ascending
       (map i_Description
          (interpreters_batch
             (@write reversed_env
                (fst (run_init reversed_env unsorted_fs "/etc/unsorted.cfg")))))
     = false
  /\ ascending
       (map i_Path
          (interpreters_batch
             (@write reversed_env
                (fst (run_init reversed_env unsorted_fs "/etc/unsorted.cfg")))))
     = false.
Proof.
  split; [vm_compute; reflexivity |]. split; [vm_compute; reflexivity |].
  split; [vm_compute; reflexivity |]. split; [vm_compute; reflexivity |].
  split; vm_compute; reflexivity.
Qed.

(** C3, counterexample.  Project section [pyvsgen.project.p] names
    interpreter section [pyvsgen.interpreter.i] twice; the resolver is
    entered twice, but the two installations of that section appear once
    each among the Project's interpreters. *)
Lemma repeated_interpreter_section_collapsed :
  exists p st',
    @_getproject ordered_env demo_config "pyvsgen.project.p" no_kwargs state0
    = (Ok p, st')
    /\ @getlist ordered_env demo_config "pyvsgen.project.p"
         "python_interpreters" None
       = Ok ["pyvsgen.interpreter.i"; "pyvsgen.interpreter.i"]
    /\ resolved KInterpreter (trace st')
       = ["pyvsgen.interpreter.i"; "pyvsgen.interpreter.i"]
    /\ map i_Path (p_PythonInterpreters p) = ["work/py27"; "work/py34"].
Proof.
  exists (fst (run_project ordered_env demo_config "pyvsgen.project.p")),
         (snd (run_project ordered_env demo_config "pyvsgen.project.p")).
  split; [vm_compute; reflexivity |].
  split; [vm_compute; reflexivity |].
  split; vm_compute; reflexivity.
Qed.


(** C9, counterexample.  A section whose name holds [pyvsgen.solution]
    without starting with it is resolved into a Solution. *)
Lemma stray_section_resolved_as_solution :
  exists suite st',
    @__init__ ordered_env stray_fs "/etc/stray.cfg" state0 = (Ok suite, st')
    /\ map s_Name (_solutions suite) = ["old"]
    /\ resolved KSolution (trace st') = ["archive.pyvsgen.solution.old"]
    /\ filter is_solution_section (sections stray_config) = [].
Proof.
  exists (fst (run_init ordered_env stray_fs "/etc/stray.cfg")),
         (snd (run_init ordered_env stray_fs "/etc/stray.cfg")).
  split; [vm_compute; reflexivity |].
  split; [vm_compute; reflexivity |].
  split; vm_compute; reflexivity.
Qed.

(** C6 on a configuration without [root]. *)
Lemma init_without_root_witness :
  @__init__ ordered_env rootless_fs "/etc/rootless.cfg" state0
  = (Err root_expected, state0).
Proof.
  apply (@init_without_root ordered_env rootless_fs "/etc/rootless.cfg"
           rootless_config state0); reflexivity.
Defined.

(** C7 on a section the demo configuration does not have. *)
Lemma missing_section_short_circuits_witness :
  in_config "pyvsgen.project.missing" demo_config = false
  /\ @_getproject ordered_env demo_config "pyvsgen.project.missing" no_kwargs
       state0
     = (Err (section_not_found demo_config "pyvsgen.project.missing"),
        entered KProject "pyvsgen.project.missing" state0).
Proof.
  split; [reflexivity |].
  apply (@missing_section_short_circuits ordered_env demo_config
           "pyvsgen.project.missing" no_kwargs state0).
  reflexivity.
Defined.






(** C9 (amended) on the demo configuration. *)
Lemma solutions_from_matching_sections_witness :
  resolved KSolution
    (trace (snd (run_init ordered_env demo_fs "/etc/demo.cfg")))
  = ["pyvsgen.solution.b"; "pyvsgen.solution.a"].
Proof.
  destruct (@solutions_from_matching_sections ordered_env demo_fs
              "/etc/demo.cfg"
              (fst (run_init ordered_env demo_fs "/etc/demo.cfg")) state0
              (snd (run_init ordered_env demo_fs "/etc/demo.cfg")))
    as (cfg & cfg' & Hfs & _ & _ & Hres & _).
  - vm_compute. reflexivity.
  - inversion Hfs; subst cfg. exact Hres.
Defined.

(** C4 on project section [pyvsgen.project.p], whose [python_interpreter]
    names the listed section [pyvsgen.interpreter.i]: the selected
    interpreter is the installation at the first of that section's paths. *)
Lemma selected_interpreter_heads_named_section_witness :
  exists p st' oid,
    @_getproject ordered_env demo_config "pyvsgen.project.p" no_kwargs state0
    = (Ok p, st')
    /\ p_PythonInterpreter p
       = Some (mkInterpreter oid "work/py27" "Python" None false).
Proof.
  destruct (@selected_interpreter_heads_named_section ordered_env demo_config
              "pyvsgen.project.p" no_kwargs state0 false
              ["pyvsgen.interpreter.i"; "pyvsgen.interpreter.i"])
    as (p & st' & mapping & Hrun & _ & _ & _ & _ & Hsome & _).
  - reflexivity.
  - reflexivity.
  - reflexivity.
  - constructor; [reflexivity |]. constructor; [reflexivity | constructor].
  - constructor.
  - destruct (Hsome "pyvsgen.interpreter.i" "work/py27" ["work/py34"])
      as (oid & Hsel & _).
    + reflexivity.
    + left. reflexivity.
    + reflexivity.
    + exists p, st', oid. split; [exact Hrun | exact Hsel].
Defined.

(** C1 on the demo suite with Projects compared by identity: the two
    Solutions hold three Project objects, two of them for [p.pyproj]; the
    batch holds one entry for [p.pyproj] and one for [q.pyproj]. *)
Lemma projects_batch_one_per_identity_witness :
  map (fun p => (p_id p, p_FileName p))
    (all_projects
       (_solutions (fst (run_init keyed_env demo_fs "/etc/demo.cfg"))))
  = [(1, "/etc/work/p.pyproj"); (6, "/etc/work/q.pyproj");
     (10, "/etc/work/p.pyproj")]
  /\ map (fun p => (p_id p, p_FileName p))
       (projects_batch
          (@write keyed_env (fst (run_init keyed_env demo_fs "/etc/demo.cfg"))))
     = [(10, "/etc/work/p.pyproj"); (6, "/etc/work/q.pyproj")]
  /\ NoDup
       (map (@project_identity keyed_env)
          (projects_batch
             (@write keyed_env
                (fst (run_init keyed_env demo_fs "/etc/demo.cfg"))))).
Proof.
  split; [vm_compute; reflexivity |]. split; [vm_compute; reflexivity |].
  exact (proj1 (@projects_batch_one_per_identity keyed_env
                  (fst (run_init keyed_env demo_fs "/etc/demo.cfg"))
                  (fun a b => eq_refl))).
Defined.

(** C3 (amended) on project section [pyvsgen.project.p]. *)
Lemma references_resolved_per_occurrence_witness :
  exists mapping,
    map fst mapping = ["pyvsgen.interpreter.i"]
    /\ p_PythonInterpreters
         (fst (run_project ordered_env demo_config "pyvsgen.project.p"))
       = concat (map snd mapping).
Proof.
  destruct (proj2 (@references_resolved_per_occurrence ordered_env demo_config
                     "pyvsgen.project.p" no_kwargs state0
                     (snd (run_project ordered_env demo_config
                             "pyvsgen.project.p")))
              (fst (run_project ordered_env demo_config "pyvsgen.project.p")))
    as (names & mapping & Hnames & _ & Hkeys & _ & Hall).
  - vm_compute. reflexivity.
  - exists mapping. split; [| exact Hall].
    rewrite Hkeys. inversion Hnames; subst names. reflexivity.
Defined.

(** ** The further properties on the reference configurations *)

(** X1 on the demo configuration. *)
Lemma constructed_suite_is_versioned_witness :
  Forall (fun s => py_not (s_VSVersion s) = false)
    (_solutions (fst (run_init ordered_env demo_fs "/etc/demo.cfg"))).
Proof.
  destruct (@constructed_suite_is_versioned ordered_env demo_fs
              "/etc/demo.cfg" state0
              (fst (run_init ordered_env demo_fs "/etc/demo.cfg"))
              (snd (run_init ordered_env demo_fs "/etc/demo.cfg")))
    as (cfg & root & _ & _ & _ & _ & Hall).
  - vm_compute. reflexivity.
  - exact Hall.
Defined.

(** X3 on a project section whose boolean is [maybe]. *)
Lemma bad_boolean_aborts_project_witness :
  @_getproject ordered_env faulty_config "pyvsgen.project.w" no_kwargs state0
  = (Err (ValueError "Not a boolean: maybe"),
     started KProject "pyvsgen.project.w" state0).
Proof.
  apply (@bad_boolean_aborts_project ordered_env faulty_config
           "pyvsgen.project.w" no_kwargs state0 "maybe"); reflexivity.
Defined.

(** X4 on a solution section whose version is [fourteen]. *)
Lemma bad_version_aborts_solution_witness :
  exists msg,
    @_getsolution ordered_env faulty_config "pyvsgen.solution.t" no_kwargs
      state0
    = (Err (ValueError msg), started KSolution "pyvsgen.solution.t" state0).
Proof.
  apply (@bad_version_aborts_solution ordered_env faulty_config
           "pyvsgen.solution.t" no_kwargs state0 "fourteen"); reflexivity.
Defined.

(** X5 on the interpreter section of the demo configuration. *)
Lemma one_entity_per_listed_path_witness :
  exists l st',
    @_getinterpreter ordered_env demo_config "pyvsgen.interpreter.i" no_kwargs
      state0 = (Ok l, st')
    /\ map i_Path l = ["work/py27"; "work/py34"].
Proof.
  destruct (proj1 (@one_entity_per_listed_path ordered_env demo_config
                     "pyvsgen.interpreter.i" no_kwargs state0 eq_refl))
    as (l & st' & Hrun & Hpaths & _).
  exists l, st'. split; [exact Hrun |]. rewrite Hpaths. reflexivity.
Defined.

(** X6 on project section [pyvsgen.project.p], which names its interpreter
    section twice. *)
Lemma interpreter_paths_of_distinct_names_witness :
  map i_Path
    (p_PythonInterpreters
       (fst (run_project ordered_env demo_config "pyvsgen.project.p")))
  = ["work/py27"; "work/py34"].
Proof.
  destruct (@interpreter_paths_of_distinct_names ordered_env demo_config
              "pyvsgen.project.p" no_kwargs state0
              (fst (run_project ordered_env demo_config "pyvsgen.project.p"))
              (snd (run_project ordered_env demo_config "pyvsgen.project.p")))
    as (names & Hnames & Hpaths).
  - vm_compute. reflexivity.
  - rewrite Hpaths. vm_compute in Hnames. inversion Hnames; subst names.
    reflexivity.
Defined.

(** X7 on a project section that names its virtual-environment section
    twice. *)
Lemma environment_paths_per_occurrence_witness :
  map i_Path
    (p_VirtualEnvironments
       (fst (run_project ordered_env venv_config "pyvsgen.project.v")))
  = ["/work/env"; "/work/env"].
Proof.
  rewrite (proj1 (@environment_paths_per_occurrence ordered_env venv_config
                    "pyvsgen.project.v" no_kwargs state0
                    (fst (run_project ordered_env venv_config
                            "pyvsgen.project.v"))
                    (snd (run_project ordered_env venv_config
                            "pyvsgen.project.v"))
                    ltac:(vm_compute; reflexivity))).
  reflexivity.
Defined.

(** X8 on project section [pyvsgen.project.p]. *)
Lemma selected_interpreter_is_listed_witness :
  exists i,
    p_PythonInterpreter
      (fst (run_project ordered_env demo_config "pyvsgen.project.p")) = Some i
    /\ In i (p_PythonInterpreters
               (fst (run_project ordered_env demo_config "pyvsgen.project.p"))).
Proof.
  eexists. split; [vm_compute; reflexivity |].
  apply (@selected_interpreter_is_listed ordered_env demo_config
           "pyvsgen.project.p" no_kwargs state0
           (fst (run_project ordered_env demo_config "pyvsgen.project.p"))
           (snd (run_project ordered_env demo_config "pyvsgen.project.p")));
    vm_compute; reflexivity.
Defined.

(** X9 on the demo configuration. *)
Lemma vsversion_flows_down_witness :
  Forall
    (fun s =>
       Forall
         (fun p =>
            p_VSVersion p = s_VSVersion s
            /\ Forall (fun i => i_VSVersion i = s_VSVersion s)
                 (p_PythonInterpreters p ++ p_VirtualEnvironments p))
         (s_Projects s))
    (_solutions (fst (run_init ordered_env demo_fs "/etc/demo.cfg"))).
Proof.
  apply (@vsversion_flows_down ordered_env demo_fs "/etc/demo.cfg" state0
           (fst (run_init ordered_env demo_fs "/etc/demo.cfg"))
           (snd (run_init ordered_env demo_fs "/etc/demo.cfg"))).
  vm_compute. reflexivity.
Defined.

(** X10 on the demo configuration. *)
Lemma resolver_calls_follow_references_witness :
  resolved KProject
    (trace (snd (run_init ordered_env demo_fs "/etc/demo.cfg")))
  = ["pyvsgen.project.p"; "pyvsgen.project.q"; "pyvsgen.project.p"].
Proof.
  destruct (@resolver_calls_follow_references ordered_env demo_fs
              "/etc/demo.cfg" state0
              (fst (run_init ordered_env demo_fs "/etc/demo.cfg"))
              (snd (run_init ordered_env demo_fs "/etc/demo.cfg")))
    as (cfg & root & cfg' & Hfs & Hget & Hset & Hprojects & _).
  - vm_compute. reflexivity.
  - inversion Hfs; subst cfg. vm_compute in Hget. inversion Hget; subst root.
    vm_compute in Hset. inversion Hset; subst cfg'.
    rewrite Hprojects. vm_compute. reflexivity.
Defined.

(** X11 on a solution that lists a project section that is not there. *)
Lemma dangling_project_aborts_build_witness :
  exists e,
    fst (@__init__ ordered_env faulty_fs "/etc/faulty.cfg" state0) = Err e.
Proof.
  apply (@dangling_project_aborts_build ordered_env faulty_fs "/etc/faulty.cfg"
           faulty_config "pyvsgen.solution.s" "pyvsgen.project.gone" state0).
  - reflexivity.
  - vm_compute. left. reflexivity.
  - vm_compute. left. reflexivity.
  - reflexivity.
Defined.

(** X12 on a project that lists an interpreter section that is not there. *)
Lemma dangling_entity_fails_project_witness :
  exists e st',
    @_getproject ordered_env faulty_config "pyvsgen.project.d" no_kwargs state0
    = (Err e, st').
Proof.
  apply (@dangling_entity_fails_project ordered_env faulty_config
           "pyvsgen.project.d" "pyvsgen.interpreter.gone" no_kwargs state0).
  - left. vm_compute. left. reflexivity.
  - reflexivity.
Defined.

(** X13 on the demo configuration. *)
Lemma constructed_entities_are_distinct_objects_witness :
  NoDup (suite_ids (fst (run_init ordered_env demo_fs "/etc/demo.cfg"))).
Proof.
  apply (@constructed_entities_are_distinct_objects ordered_env demo_fs
           "/etc/demo.cfg" state0
           (fst (run_init ordered_env demo_fs "/etc/demo.cfg"))
           (snd (run_init ordered_env demo_fs "/etc/demo.cfg"))).
  vm_compute. reflexivity.
Defined.

(** X14 on the demo configuration, with Python's default equality. *)
Lemma default_equality_collapses_nothing_witness :
  Permutation
    (projects_batch
       (@write ordered_env (fst (run_init ordered_env demo_fs "/etc/demo.cfg"))))
    (all_projects
       (_solutions (fst (run_init ordered_env demo_fs "/etc/demo.cfg")))).
Proof.
  apply (@default_equality_collapses_nothing ordered_env demo_fs
           "/etc/demo.cfg" state0
           (fst (run_init ordered_env demo_fs "/etc/demo.cfg"))
           (snd (run_init ordered_env demo_fs "/etc/demo.cfg"))).
  - intros a b H. apply Nat.eqb_eq. exact H.
  - intros a b H. apply Nat.eqb_eq. exact H.
  - vm_compute. reflexivity.
Defined.

(** X20 on the demo configuration, with classes that compare FileName. *)
Lemma filename_equality_one_per_filename_witness :
  NoDup
    (map p_FileName
       (projects_batch
          (@write keyed_env
             (fst (run_init ordered_env demo_fs "/etc/demo.cfg"))))).
Proof.
  apply (@filename_equality_one_per_filename keyed_env).
  intros a b. reflexivity.
Defined.

(** X21 on a configuration whose second solution has no version. *)
Lemma construction_stops_at_first_failure_witness :
  resolved KSolution
    (trace (snd (@__init__ ordered_env unversioned_fs "/etc/unversioned.cfg"
                   state0)))
  = ["pyvsgen.solution.a"; "pyvsgen.solution.b"].
Proof.
  epose proof (@construction_stops_at_first_failure ordered_env unversioned_fs
                 "/etc/unversioned.cfg" unversioned_config "/work" _
                 ["pyvsgen.solution.a"] "pyvsgen.solution.b" [] _ _ state0
                 _ _) as H.
  edestruct H as (Hinit & Htrace); clear H.
  - reflexivity.
  - reflexivity.
  - discriminate.
  - cbv. reflexivity.
  - cbv. reflexivity.
  - cbv. reflexivity.
  - cbv. reflexivity.
  - rewrite Hinit. exact Htrace.
Defined.
